(** * neutron-lbaas: the agent-based plugin driver

    A shallow embedding of [neutron_lbaas/drivers/common/agent_driver_base.py]:
    the plugin-to-agent RPC API, the five resource managers and
    [AgentDriverBase] with its agent monitoring and rescheduling.

    The driver talks to collaborators whose code lives elsewhere: the
    database mixin behind [self.plugin.db], the loadbalancer scheduler, the
    base managers of [driver_base], the messaging client and the loader of
    the scheduler class.  They are interfaces here (type classes); the
    driver's own control flow, the order of its calls and the way exceptions
    leave it are those of the source. *)

From stdpp Require Import base gmap strings list.
From Stdlib Require Import ZArith Lia.

Open Scope string_scope.
Open Scope Z_scope.
Open Scope list_scope.

(** ** Data *)

(** An agent dict as the database mixin makes it.  The driver reads ['id']
    and ['host']; the liveness check reads the heartbeat. *)
Record Agent := mkAgent {
  agent_id : string;
  agent_host : string;
  heartbeat_timestamp : Z;
}.

(** The dict [{'agent': <agent dict>}] returned by
    [get_agent_hosting_loadbalancer]. *)
Record HostingAgent := mkHosting { hosting_agent : Agent }.

Record LoadBalancer := mkLoadBalancer { lb_id : string }.
Record Listener := mkListener {
  listener_id : string;
  listener_loadbalancer : LoadBalancer;
}.
Record Pool := mkPool { pool_id : string; pool_listener : Listener }.
Record Member := mkMember { member_id : string; member_pool : Pool }.
Record HealthMonitor := mkHealthMonitor { hm_id : string; hm_pool : Pool }.

(** Python truthiness, as used by [if agent:] and [if not agent:]. *)
Class Truthy (A : Type) := truthy : A -> bool.

(** A dict with keys is true. *)
#[global] Instance Agent_truthy : Truthy Agent := fun _ => true.
#[global] Instance HostingAgent_truthy : Truthy HostingAgent := fun _ => true.
(** [None] is false. *)
#[global] Instance option_truthy {A} `{Truthy A} : Truthy (option A) :=
  fun o => match o with Some a => truthy a | None => false end.
(** The empty string is false. *)
#[global] Instance string_truthy : Truthy string :=
  fun s => match s with EmptyString => false | _ => true end.
(** Zero is false. *)
#[global] Instance Z_truthy : Truthy Z := fun z => negb (z =? 0).

(** ** Exceptions *)

Inductive Exn :=
| DriverNotSpecified
| NoEligibleLbaasAgent (loadbalancer_id : string)
| NoActiveLbaasAgent (loadbalancer_id : string)
| OtherError (what : string).

Inductive Res (A : Type) :=
| Ok (a : A)
| Raise (e : Exn).
Arguments Ok {A} a.
Arguments Raise {A} e.

Definition is_ok {A} (r : Res A) : bool :=
  match r with Ok _ => true | Raise _ => false end.

(** ** What the driver does to the outside *)

(** Keyword arguments of a cast. *)
Inductive Value :=
| VBool (b : bool)
| VStr (s : string)
| VLoadBalancer (x : LoadBalancer)
| VListener (x : Listener)
| VPool (x : Pool)
| VMember (x : Member)
| VHealthMonitor (x : HealthMonitor)
| VAdminState (admin_state_up : bool).

(** [client.prepare(server=host).cast(context, method, **kwargs)] *)
Record Cast := mkCast {
  cast_server : string;
  cast_method : string;
  cast_kwargs : list (string * Value);
}.

Inductive Kind := KLoadBalancer | KListener | KPool | KMember | KHealthMonitor.
Inductive Method := MCreate | MUpdate | MDelete.

(** Calls on [self.plugin.db] that take a context. *)
Inductive DbCall :=
| GetLbaasAgents
| ListLoadbalancersOnLbaasAgent (agent_id : string)
| GetAgentHostingLoadbalancer (loadbalancer_id : string)
| DeleteLoadbalancer (id : string)
| DeleteListener (id : string)
| DeletePool (id : string)
| DeletePoolMember (id : string)
| DeleteHealthmonitor (id : string)
| UpdateLoadbalancerProvisioningStatus (loadbalancer_id : string).

Inductive Topic := LOADBALANCER_AGENTV2 | LOADBALANCER_PLUGINV2.

(** Every call that leaves the driver, in the order it is made. *)
Inductive Event :=
| EvCast (c : Cast)
| EvLogWarning (msg : string) (args : list string)
| EvSuper (k : Kind) (m : Method) (id : string)
| EvDb (c : DbCall)
| EvSchedule (loadbalancer_id : string) (device_driver : string)
| EvReschedule (loadbalancer_id : string) (device_driver : string)
| EvAgentNotifier
| EvLoopStart (interval initial_delay : Z)
| EvCreateConsumer (t : Topic)
| EvConsumeInThreads.

(** ** Collaborators *)

(** The database mixin behind [self.plugin.db]; [D] is its data, the time of
    day included: [is_eligible_agent] compares the heartbeat of the agent
    with it. *)
Class Registry (D : Type) := {
  get_lbaas_agents : D -> list Agent;
  is_eligible_agent : D -> bool -> Agent -> bool;
  list_loadbalancers_on_lbaas_agent : D -> string -> list LoadBalancer;
  get_agent_hosting_loadbalancer : D -> string -> option HostingAgent;
  db_delete_loadbalancer : D -> string -> D;
  db_delete_listener : D -> string -> D;
  db_delete_pool : D -> string -> D;
  db_delete_pool_member : D -> string -> D;
  db_delete_healthmonitor : D -> string -> D;
  update_loadbalancer_provisioning_status : D -> string -> D;
}.

(** [self.loadbalancer_scheduler]: both calls may bind the loadbalancer to an
    agent in the database, return an agent or [None], or raise. *)
Class Scheduler (D : Type) := {
  schedule : D -> LoadBalancer -> string -> Res (option Agent) * D;
  reschedule : D -> string -> string -> Res (option Agent) * D;
}.

(** The managers of [driver_base] reached through [super(...)]. *)
Class BaseManagers (D : Type) := {
  super_call : Kind -> Method -> string -> D -> D;
}.

(** The RPC client: given what happened so far, a cast returns ([None]) or
    raises. *)
Class Messaging := {
  cast_outcome : list Event -> Cast -> option Exn;
}.

(** [provconf.get_provider_driver_class] and [importutils.import_object]:
    loading the class of the given name returns ([None]) or raises. *)
Class Importer := {
  import_object : string -> option Exn;
}.

(** [cfg.CONF] *)
Record Conf := mkConf {
  loadbalancer_scheduler_driver : string;
  lbaas_agent_monitoring_interval : Z;
}.

(** ** State *)

(** The plugin object shared by the drivers built on it: the database data,
    the attributes set on [self.plugin] and on [self.plugin.db] (two objects,
    two name spaces), the active agents and the record of calls. *)
Record World (D : Type) := mkWorld {
  db : D;
  plugin_attrs : gset string;
  db_attrs : gset string;
  active_agents : gset string;
  trace : list Event;
}.
Arguments mkWorld {D} _ _ _ _ _.
Arguments db {D} _.
Arguments plugin_attrs {D} _.
Arguments db_attrs {D} _.
Arguments active_agents {D} _.
Arguments trace {D} _.

(** A computation changes the world and returns or raises; what it changed
    before raising stays changed. *)
Definition M (D A : Type) : Type := World D -> Res A * World D.

Definition ret {D A} (a : A) : M D A := fun w => (Ok a, w).

Definition bind {D A B} (m : M D A) (f : A -> M D B) : M D B := fun w =>
  match m w with
  | (Ok a, w') => f a w'
  | (Raise e, w') => (Raise e, w')
  end.

Notation "'let*' x ':=' c 'in' k" := (bind c (fun x => k))
  (at level 10, x name, c at level 200, k at level 200, only parsing).
Notation "c >> k" := (bind c (fun _ => k))
  (at level 92, right associativity, only parsing).

Definition raise {D A} (e : Exn) : M D A := fun w => (Raise e, w).

(** The world with one more call recorded. *)
Definition record {D} (e : Event) (w : World D) : World D :=
  mkWorld (db w) (plugin_attrs w) (db_attrs w) (active_agents w)
    (trace w ++ [e]).

Definition emit {D} (e : Event) : M D unit := fun w => (Ok tt, record e w).

Definition set_db {D} (d : D) : M D unit := fun w =>
  (Ok tt, mkWorld d (plugin_attrs w) (db_attrs w) (active_agents w) (trace w)).

Definition set_active_agents {D} (s : gset string) : M D unit := fun w =>
  (Ok tt, mkWorld (db w) (plugin_attrs w) (db_attrs w) s (trace w)).

Definition setattr_plugin {D} (name : string) : M D unit := fun w =>
  (Ok tt, mkWorld (db w) ({[name]} ∪ plugin_attrs w) (db_attrs w)
                  (active_agents w) (trace w)).

Definition setattr_db {D} (name : string) : M D unit := fun w =>
  (Ok tt, mkWorld (db w) (plugin_attrs w) ({[name]} ∪ db_attrs w)
                  (active_agents w) (trace w)).

Definition hasattr_plugin {D} (name : string) : M D bool := fun w =>
  (Ok (bool_decide (name ∈ plugin_attrs w)), w).

Definition get_active_agents {D} : M D (gset string) := fun w =>
  (Ok (active_agents w), w).

Definition get_db {D} : M D D := fun w => (Ok (db w), w).

(** A read of the database. *)
Definition db_read {D A} (c : DbCall) (f : D -> A) : M D A := fun w =>
  match emit (EvDb c) w with (_, w') => (Ok (f (db w)), w') end.

(** A write to the database. *)
Definition db_write {D} (c : DbCall) (f : D -> D) : M D unit :=
  emit (EvDb c) >> (fun w => set_db (f (db w)) w).

(** [for x in xs: body(x)] *)
Fixpoint for_each {D A} (body : A -> M D unit) (xs : list A) : M D unit :=
  match xs with
  | [] => ret tt
  | x :: xs' => body x >> for_each body xs'
  end.

(** ** [LoadBalancerAgentApi]: plugin side of the plugin to agent RPC API *)

Module LoadBalancerAgentApi.
Section Api.
Context {D : Type} {Msg : Messaging}.

(** [self.client.prepare(server=host).cast(context, method, **kwargs)]: the
    call is recorded, then it returns or raises. *)
Definition cast (host method : string) (kwargs : list (string * Value))
  : M D unit := fun w =>
  let c := mkCast host method kwargs in
  match cast_outcome (trace w) c with
  | None => emit (EvCast c) w
  | Some e => (Raise e, snd (emit (EvCast c) w))
  end.

Definition agent_updated (admin_state_up : bool) (host : string) : M D unit :=
  cast host "agent_updated" [("payload", VAdminState admin_state_up)].

Definition instance_added (loadbalancer_id host : string) : M D unit :=
  cast host "instance_added" [("loadbalancer_id", VStr loadbalancer_id)].

Definition instance_removed (loadbalancer_id host : string) : M D unit :=
  cast host "instance_removed" [("loadbalancer_id", VStr loadbalancer_id)].

Definition create_loadbalancer (loadbalancer : LoadBalancer)
    (host driver_name : string) : M D unit :=
  cast host "create_loadbalancer"
    [("loadbalancer", VLoadBalancer loadbalancer);
     ("driver_name", VStr driver_name)].

Definition update_loadbalancer (old_loadbalancer loadbalancer : LoadBalancer)
    (host : string) : M D unit :=
  cast host "update_loadbalancer"
    [("old_loadbalancer", VLoadBalancer old_loadbalancer);
     ("loadbalancer", VLoadBalancer loadbalancer)].

Definition delete_loadbalancer (loadbalancer : LoadBalancer) (host : string)
  : M D unit :=
  cast host "delete_loadbalancer" [("loadbalancer", VLoadBalancer loadbalancer)].

Definition create_listener (listener : Listener) (host : string) : M D unit :=
  cast host "create_listener" [("listener", VListener listener)].

Definition update_listener (old_listener listener : Listener) (host : string)
  : M D unit :=
  cast host "update_listener"
    [("old_listener", VListener old_listener); ("listener", VListener listener)].

Definition delete_listener (listener : Listener) (host : string) : M D unit :=
  cast host "delete_listener" [("listener", VListener listener)].

Definition create_pool (pool : Pool) (host : string) : M D unit :=
  cast host "create_pool" [("pool", VPool pool)].

Definition update_pool (old_pool pool : Pool) (host : string) : M D unit :=
  cast host "update_pool" [("old_pool", VPool old_pool); ("pool", VPool pool)].

Definition delete_pool (pool : Pool) (host : string) : M D unit :=
  cast host "delete_pool" [("pool", VPool pool)].

Definition create_member (member : Member) (host : string) : M D unit :=
  cast host "create_member" [("member", VMember member)].

Definition update_member (old_member member : Member) (host : string)
  : M D unit :=
  cast host "update_member"
    [("old_member", VMember old_member); ("member", VMember member)].

Definition delete_member (member : Member) (host : string) : M D unit :=
  cast host "delete_member" [("member", VMember member)].

Definition create_healthmonitor (healthmonitor : HealthMonitor) (host : string)
  : M D unit :=
  cast host "create_healthmonitor" [("healthmonitor", VHealthMonitor healthmonitor)].

Definition update_healthmonitor (old_healthmonitor healthmonitor : HealthMonitor)
    (host : string) : M D unit :=
  cast host "update_healthmonitor"
    [("old_healthmonitor", VHealthMonitor old_healthmonitor);
     ("healthmonitor", VHealthMonitor healthmonitor)].

Definition delete_healthmonitor (healthmonitor : HealthMonitor) (host : string)
  : M D unit :=
  cast host "delete_healthmonitor" [("healthmonitor", VHealthMonitor healthmonitor)].

End Api.
End LoadBalancerAgentApi.

(** ** Calls on the other collaborators *)

Section Collaborators.
Context {D : Type} {Sch : Scheduler D} {B : BaseManagers D}.

(** [super(XManager, self).<method>(context, ...)] *)
Definition super (k : Kind) (m : Method) (id : string) : M D unit :=
  emit (EvSuper k m id) >> (fun w => set_db (super_call k m id (db w)) w).

(** [self.loadbalancer_scheduler.schedule(plugin, context, loadbalancer,
    device_driver)] *)
Definition call_schedule (loadbalancer : LoadBalancer) (device_driver : string)
  : M D (option Agent) :=
  emit (EvSchedule (lb_id loadbalancer) device_driver) >>
  (fun w => match schedule (db w) loadbalancer device_driver with
            | (r, d') => (r, snd (set_db d' w))
            end).

(** [self.loadbalancer_scheduler.reschedule(plugin.db, context,
    loadbalancer_id, device_driver)] *)
Definition call_reschedule (loadbalancer_id device_driver : string)
  : M D (option Agent) :=
  emit (EvReschedule loadbalancer_id device_driver) >>
  (fun w => match reschedule (db w) loadbalancer_id device_driver with
            | (r, d') => (r, snd (set_db d' w))
            end).

End Collaborators.

(** A driver instance; [__init__] has checked that its [device_driver] is
    set. *)
Record Driver := mkDriver { device_driver : string }.

(** ** [AgentDriverBase] *)

Module AgentDriverBase.
Section Driver.
Context {D : Type} {R : Registry D} {Sch : Scheduler D} {B : BaseManagers D}
  {Msg : Messaging} {Imp : Importer}.

(** The two messages given to [LOG.warning]. *)
Definition became_inactive_msg : string :=
  "LBaaS agent %(agent_id)s on host %(host)s became inactive; going to reschedule instances to other eligible agents".

Definition no_eligible_agent_msg : string :=
  "Can't reschedule instance %s: no eligible agent found".

Definition get_loadbalancer_agent (loadbalancer_id : string) : M D Agent :=
  let* agent := db_read (GetAgentHostingLoadbalancer loadbalancer_id)
                  (fun d => get_agent_hosting_loadbalancer d loadbalancer_id) in
  match agent with
  | Some hosting =>
      if negb (truthy hosting)
      then raise (NoActiveLbaasAgent loadbalancer_id)
      else ret (hosting_agent hosting)
  | None => raise (NoActiveLbaasAgent loadbalancer_id)
  end.

Definition _set_callbacks_on_plugin : M D unit :=
  let* already := hasattr_plugin "agent_callbacks" in
  if already then ret tt
  else
    setattr_plugin "agent_endpoints" >>
    setattr_plugin "conn" >>
    emit (EvCreateConsumer LOADBALANCER_PLUGINV2) >>
    emit EvConsumeInThreads.

(** The body of the loop of [_reschedule_instances]. *)
Definition reschedule_instance (self : Driver) (agent : Agent)
    (loadbalancer : LoadBalancer) : M D unit :=
  let* new_agent :=
    call_reschedule (lb_id loadbalancer) (device_driver self) in
  match new_agent with
  | Some new_agent =>
      if truthy new_agent then
        LoadBalancerAgentApi.instance_added
          (lb_id loadbalancer) (agent_host new_agent) >>
        LoadBalancerAgentApi.instance_removed
          (lb_id loadbalancer) (agent_host agent)
      else
        emit (EvLogWarning no_eligible_agent_msg [lb_id loadbalancer])
  | None => emit (EvLogWarning no_eligible_agent_msg [lb_id loadbalancer])
  end.

Definition _reschedule_instances (self : Driver) (agent : Agent) : M D unit :=
  let* loadbalancers :=
    db_read (ListLoadbalancersOnLbaasAgent (agent_id agent))
      (fun d => list_loadbalancers_on_lbaas_agent d (agent_id agent)) in
  for_each (reschedule_instance self agent) loadbalancers.

(** The body of the loop of [_check_agents_states]. *)
Definition check_agent_state (self : Driver) (agent : Agent) : M D unit :=
  let* d := get_db in
  let active := is_eligible_agent d true agent in
  let* known := get_active_agents in
  if negb active && bool_decide (agent_id agent ∈ known) then
    set_active_agents (known ∖ {[agent_id agent]}) >>
    emit (EvLogWarning became_inactive_msg
            [agent_id agent; agent_host agent]) >>
    _reschedule_instances self agent
  else if active && negb (bool_decide (agent_id agent ∈ known)) then
    set_active_agents ({[agent_id agent]} ∪ known)
  else ret tt.

Definition _check_agents_states (self : Driver) : M D unit :=
  let* agents := db_read GetLbaasAgents get_lbaas_agents in
  for_each (check_agent_state self) agents.

Definition _setup_agent_monitoring_on_plugin (conf : Conf) : M D unit :=
  let* already := hasattr_plugin "agent_monitoring" in
  if already then ret tt
  else
    setattr_db "active_agents" >>
    set_active_agents ∅ >>
    let interval := lbaas_agent_monitoring_interval conf in
    if truthy interval then
      setattr_db "agent_monitoring" >>
      emit (EvLoopStart interval interval)
    else ret tt.

(** [lb_sched_driver = provconf.get_provider_driver_class(
    cfg.CONF.loadbalancer_scheduler_driver, LB_SCHEDULERS)] and
    [self.loadbalancer_scheduler = importutils.import_object(lb_sched_driver)] *)
Definition load_scheduler (conf : Conf) : M D unit := fun w =>
  match import_object (loadbalancer_scheduler_driver conf) with
  | None => (Ok tt, w)
  | Some e => (Raise e, w)
  end.

(** [device_driver] is the class attribute of the vendor's driver class:
    [None] unless overridden. *)
Definition __init__ (conf : Conf) (device_driver : option string)
  : M D Driver :=
  if negb (truthy device_driver) then raise DriverNotSpecified
  else
    match device_driver with
    | None => raise DriverNotSpecified
    | Some name =>
        _set_callbacks_on_plugin >>
        emit EvAgentNotifier >>
        load_scheduler conf >>
        _setup_agent_monitoring_on_plugin conf >>
        ret (mkDriver name)
    end.

End Driver.
End AgentDriverBase.

(** ** The resource managers *)

Module LoadBalancerManager.
Section Manager.
Context {D : Type} {R : Registry D} {Sch : Scheduler D} {B : BaseManagers D}
  {Msg : Messaging}.

Definition update (self : Driver) (old_loadbalancer loadbalancer : LoadBalancer)
  : M D unit :=
  super KLoadBalancer MUpdate (lb_id loadbalancer) >>
  let* agent := AgentDriverBase.get_loadbalancer_agent (lb_id loadbalancer) in
  LoadBalancerAgentApi.update_loadbalancer
    old_loadbalancer loadbalancer (agent_host agent).

Definition create (self : Driver) (loadbalancer : LoadBalancer) : M D unit :=
  super KLoadBalancer MCreate (lb_id loadbalancer) >>
  let* agent := call_schedule loadbalancer (device_driver self) in
  match agent with
  | Some agent =>
      if negb (truthy agent)
      then raise (NoEligibleLbaasAgent (lb_id loadbalancer))
      else LoadBalancerAgentApi.create_loadbalancer
             loadbalancer (agent_host agent) (device_driver self)
  | None => raise (NoEligibleLbaasAgent (lb_id loadbalancer))
  end.

Definition delete (self : Driver) (loadbalancer : LoadBalancer) : M D unit :=
  super KLoadBalancer MDelete (lb_id loadbalancer) >>
  let* agent := AgentDriverBase.get_loadbalancer_agent (lb_id loadbalancer) in
  db_write (DeleteLoadbalancer (lb_id loadbalancer))
    (fun d => db_delete_loadbalancer d (lb_id loadbalancer)) >>
  if truthy agent then
    LoadBalancerAgentApi.delete_loadbalancer loadbalancer (agent_host agent)
  else ret tt.

Definition stats (self : Driver) (loadbalancer : LoadBalancer) : M D unit :=
  ret tt.

Definition refresh (self : Driver) (loadbalancer : LoadBalancer) : M D unit :=
  ret tt.

End Manager.
End LoadBalancerManager.

Module ListenerManager.
Section Manager.
Context {D : Type} {R : Registry D} {Sch : Scheduler D} {B : BaseManagers D}
  {Msg : Messaging}.

Definition update (self : Driver) (old_listener listener : Listener)
  : M D unit :=
  super KListener MUpdate (listener_id listener) >>
  let* agent := AgentDriverBase.get_loadbalancer_agent
                  (lb_id (listener_loadbalancer listener)) in
  LoadBalancerAgentApi.update_listener old_listener listener (agent_host agent).

Definition create (self : Driver) (listener : Listener) : M D unit :=
  super KListener MCreate (listener_id listener) >>
  let* agent := AgentDriverBase.get_loadbalancer_agent
                  (lb_id (listener_loadbalancer listener)) in
  LoadBalancerAgentApi.create_listener listener (agent_host agent).

Definition delete (self : Driver) (listener : Listener) : M D unit :=
  super KListener MDelete (listener_id listener) >>
  let* agent := AgentDriverBase.get_loadbalancer_agent
                  (lb_id (listener_loadbalancer listener)) in
  db_write (DeleteListener (listener_id listener))
    (fun d => db_delete_listener d (listener_id listener)) >>
  db_write (UpdateLoadbalancerProvisioningStatus
              (lb_id (listener_loadbalancer listener)))
    (fun d => update_loadbalancer_provisioning_status d
                (lb_id (listener_loadbalancer listener))) >>
  LoadBalancerAgentApi.delete_listener listener (agent_host agent).

End Manager.
End ListenerManager.

Module PoolManager.
Section Manager.
Context {D : Type} {R : Registry D} {Sch : Scheduler D} {B : BaseManagers D}
  {Msg : Messaging}.

Definition update (self : Driver) (old_pool pool : Pool) : M D unit :=
  super KPool MUpdate (pool_id pool) >>
  let* agent := AgentDriverBase.get_loadbalancer_agent
                  (lb_id (listener_loadbalancer (pool_listener pool))) in
  LoadBalancerAgentApi.update_pool old_pool pool (agent_host agent).

(** The source calls [super(PoolManager, self).delete] here. *)
Definition create (self : Driver) (pool : Pool) : M D unit :=
  super KPool MDelete (pool_id pool) >>
  let* agent := AgentDriverBase.get_loadbalancer_agent
                  (lb_id (listener_loadbalancer (pool_listener pool))) in
  LoadBalancerAgentApi.create_pool pool (agent_host agent).

Definition delete (self : Driver) (pool : Pool) : M D unit :=
  super KPool MDelete (pool_id pool) >>
  let* agent := AgentDriverBase.get_loadbalancer_agent
                  (lb_id (listener_loadbalancer (pool_listener pool))) in
  db_write (DeletePool (pool_id pool))
    (fun d => db_delete_pool d (pool_id pool)) >>
  db_write (UpdateLoadbalancerProvisioningStatus
              (lb_id (listener_loadbalancer (pool_listener pool))))
    (fun d => update_loadbalancer_provisioning_status d
                (lb_id (listener_loadbalancer (pool_listener pool)))) >>
  LoadBalancerAgentApi.delete_pool pool (agent_host agent).

End Manager.
End PoolManager.

Module MemberManager.
Section Manager.
Context {D : Type} {R : Registry D} {Sch : Scheduler D} {B : BaseManagers D}
  {Msg : Messaging}.

Definition owner (member : Member) : string :=
  lb_id (listener_loadbalancer (pool_listener (member_pool member))).

Definition update (self : Driver) (old_member member : Member) : M D unit :=
  super KMember MUpdate (member_id member) >>
  let* agent := AgentDriverBase.get_loadbalancer_agent (owner member) in
  LoadBalancerAgentApi.update_member old_member member (agent_host agent).

Definition create (self : Driver) (member : Member) : M D unit :=
  super KMember MCreate (member_id member) >>
  let* agent := AgentDriverBase.get_loadbalancer_agent (owner member) in
  LoadBalancerAgentApi.create_member member (agent_host agent).

Definition delete (self : Driver) (member : Member) : M D unit :=
  super KMember MDelete (member_id member) >>
  let* agent := AgentDriverBase.get_loadbalancer_agent (owner member) in
  db_write (DeletePoolMember (member_id member))
    (fun d => db_delete_pool_member d (member_id member)) >>
  db_write (UpdateLoadbalancerProvisioningStatus (owner member))
    (fun d => update_loadbalancer_provisioning_status d (owner member)) >>
  LoadBalancerAgentApi.delete_member member (agent_host agent).

End Manager.
End MemberManager.

Module HealthMonitorManager.
Section Manager.
Context {D : Type} {R : Registry D} {Sch : Scheduler D} {B : BaseManagers D}
  {Msg : Messaging}.

Definition owner (healthmonitor : HealthMonitor) : string :=
  lb_id (listener_loadbalancer (pool_listener (hm_pool healthmonitor))).

Definition update (self : Driver)
    (old_healthmonitor healthmonitor : HealthMonitor) : M D unit :=
  super KHealthMonitor MUpdate (hm_id healthmonitor) >>
  let* agent := AgentDriverBase.get_loadbalancer_agent (owner healthmonitor) in
  LoadBalancerAgentApi.update_healthmonitor
    old_healthmonitor healthmonitor (agent_host agent).

Definition create (self : Driver) (healthmonitor : HealthMonitor) : M D unit :=
  super KHealthMonitor MCreate (hm_id healthmonitor) >>
  let* agent := AgentDriverBase.get_loadbalancer_agent (owner healthmonitor) in
  LoadBalancerAgentApi.create_healthmonitor healthmonitor (agent_host agent).

Definition delete (self : Driver) (healthmonitor : HealthMonitor) : M D unit :=
  super KHealthMonitor MDelete (hm_id healthmonitor) >>
  let* agent := AgentDriverBase.get_loadbalancer_agent (owner healthmonitor) in
  db_write (DeleteHealthmonitor (hm_id healthmonitor))
    (fun d => db_delete_healthmonitor d (hm_id healthmonitor)) >>
  db_write (UpdateLoadbalancerProvisioningStatus (owner healthmonitor))
    (fun d => update_loadbalancer_provisioning_status d (owner healthmonitor)) >>
  LoadBalancerAgentApi.delete_healthmonitor healthmonitor (agent_host agent).

End Manager.
End HealthMonitorManager.

(** ** The four sub-resources of a loadbalancer

    The plugin hands a listener, pool, member or health monitor to the
    manager of its kind. *)

Inductive Resource :=
| RListener (listener : Listener)
| RPool (pool : Pool)
| RMember (member : Member)
| RHealthMonitor (healthmonitor : HealthMonitor).

Definition resource_kind (r : Resource) : Kind :=
  match r with
  | RListener _ => KListener
  | RPool _ => KPool
  | RMember _ => KMember
  | RHealthMonitor _ => KHealthMonitor
  end.

Definition resource_id (r : Resource) : string :=
  match r with
  | RListener x => listener_id x
  | RPool x => pool_id x
  | RMember x => member_id x
  | RHealthMonitor x => hm_id x
  end.

(** The id of the loadbalancer at the end of the parent chain. *)
Definition resource_owner (r : Resource) : string :=
  match r with
  | RListener x => lb_id (listener_loadbalancer x)
  | RPool x => lb_id (listener_loadbalancer (pool_listener x))
  | RMember x => MemberManager.owner x
  | RHealthMonitor x => HealthMonitorManager.owner x
  end.

(** The database call that deletes the resource. *)
Definition resource_db_delete (r : Resource) : DbCall :=
  match r with
  | RListener x => DeleteListener (listener_id x)
  | RPool x => DeletePool (pool_id x)
  | RMember x => DeletePoolMember (member_id x)
  | RHealthMonitor x => DeleteHealthmonitor (hm_id x)
  end.

Section Dispatch.
Context {D : Type} {R : Registry D} {Sch : Scheduler D} {B : BaseManagers D}
  {Msg : Messaging}.

Definition delete_resource (self : Driver) (r : Resource) : M D unit :=
  match r with
  | RListener x => ListenerManager.delete self x
  | RPool x => PoolManager.delete self x
  | RMember x => MemberManager.delete self x
  | RHealthMonitor x => HealthMonitorManager.delete self x
  end.

End Dispatch.

(** ** The calls the plugin makes on the managers *)

(** An update comes with the object as it was and as it is. *)
Inductive Change :=
| ChLoadBalancer (old_loadbalancer loadbalancer : LoadBalancer)
| ChListener (old_listener listener : Listener)
| ChPool (old_pool pool : Pool)
| ChMember (old_member member : Member)
| ChHealthMonitor (old_healthmonitor healthmonitor : HealthMonitor).

Definition change_kind (c : Change) : Kind :=
  match c with
  | ChLoadBalancer _ _ => KLoadBalancer
  | ChListener _ _ => KListener
  | ChPool _ _ => KPool
  | ChMember _ _ => KMember
  | ChHealthMonitor _ _ => KHealthMonitor
  end.

(** The id of the object as it is. *)
Definition change_id (c : Change) : string :=
  match c with
  | ChLoadBalancer _ x => lb_id x
  | ChListener _ x => listener_id x
  | ChPool _ x => pool_id x
  | ChMember _ x => member_id x
  | ChHealthMonitor _ x => hm_id x
  end.

(** The loadbalancer of the object as it is. *)
Definition change_owner (c : Change) : string :=
  match c with
  | ChLoadBalancer _ x => lb_id x
  | ChListener _ x => lb_id (listener_loadbalancer x)
  | ChPool _ x => lb_id (listener_loadbalancer (pool_listener x))
  | ChMember _ x => MemberManager.owner x
  | ChHealthMonitor _ x => HealthMonitorManager.owner x
  end.

Definition change_old (c : Change) : Value :=
  match c with
  | ChLoadBalancer x _ => VLoadBalancer x
  | ChListener x _ => VListener x
  | ChPool x _ => VPool x
  | ChMember x _ => VMember x
  | ChHealthMonitor x _ => VHealthMonitor x
  end.

Definition change_new (c : Change) : Value :=
  match c with
  | ChLoadBalancer _ x => VLoadBalancer x
  | ChListener _ x => VListener x
  | ChPool _ x => VPool x
  | ChMember _ x => VMember x
  | ChHealthMonitor _ x => VHealthMonitor x
  end.

Definition resource_value (r : Resource) : Value :=
  match r with
  | RListener x => VListener x
  | RPool x => VPool x
  | RMember x => VMember x
  | RHealthMonitor x => VHealthMonitor x
  end.

(** The word for a kind in the names of the RPC methods and of their
    keyword arguments. *)
Definition kind_noun (k : Kind) : string :=
  match k with
  | KLoadBalancer => "loadbalancer"
  | KListener => "listener"
  | KPool => "pool"
  | KMember => "member"
  | KHealthMonitor => "healthmonitor"
  end.

(** The casts [delete_<kind>(<kind>=...)] and
    [update_<kind>(old_<kind>=..., <kind>=...)]. *)
Definition delete_cast (r : Resource) (host : string) : Cast :=
  mkCast host (String.append "delete_" (kind_noun (resource_kind r)))
    [(kind_noun (resource_kind r), resource_value r)].

Definition update_cast (c : Change) (host : string) : Cast :=
  mkCast host (String.append "update_" (kind_noun (change_kind c)))
    [(String.append "old_" (kind_noun (change_kind c)), change_old c);
     (kind_noun (change_kind c), change_new c)].

Inductive Operation :=
| OpCreate (r : Resource)
| OpUpdate (c : Change)
| OpDelete (r : Resource)
| OpCreateLoadBalancer (loadbalancer : LoadBalancer)
| OpDeleteLoadBalancer (loadbalancer : LoadBalancer)
| OpStats (loadbalancer : LoadBalancer)
| OpRefresh (loadbalancer : LoadBalancer).

(** The loadbalancer whose agent the operation asks the database for. *)
Definition operation_owner (op : Operation) : option string :=
  match op with
  | OpCreate r | OpDelete r => Some (resource_owner r)
  | OpUpdate c => Some (change_owner c)
  | OpDeleteLoadBalancer x => Some (lb_id x)
  | OpCreateLoadBalancer _ | OpStats _ | OpRefresh _ => None
  end.

(** [stats] and [refresh] do nothing; the others end with a cast. *)
Definition notifies (op : Operation) : bool :=
  match op with
  | OpStats _ | OpRefresh _ => false
  | _ => true
  end.

Section Plugin.
Context {D : Type} {R : Registry D} {Sch : Scheduler D} {B : BaseManagers D}
  {Msg : Messaging}.

(** The database after the delete call of the resource's manager. *)
Definition db_delete_resource (r : Resource) (d : D) : D :=
  match r with
  | RListener x => db_delete_listener d (listener_id x)
  | RPool x => db_delete_pool d (pool_id x)
  | RMember x => db_delete_pool_member d (member_id x)
  | RHealthMonitor x => db_delete_healthmonitor d (hm_id x)
  end.

Definition create_resource (self : Driver) (r : Resource) : M D unit :=
  match r with
  | RListener x => ListenerManager.create self x
  | RPool x => PoolManager.create self x
  | RMember x => MemberManager.create self x
  | RHealthMonitor x => HealthMonitorManager.create self x
  end.

Definition update_change (self : Driver) (c : Change) : M D unit :=
  match c with
  | ChLoadBalancer old new => LoadBalancerManager.update self old new
  | ChListener old new => ListenerManager.update self old new
  | ChPool old new => PoolManager.update self old new
  | ChMember old new => MemberManager.update self old new
  | ChHealthMonitor old new => HealthMonitorManager.update self old new
  end.

Definition run_operation (self : Driver) (op : Operation) : M D unit :=
  match op with
  | OpCreate r => create_resource self r
  | OpUpdate c => update_change self c
  | OpDelete r => delete_resource self r
  | OpCreateLoadBalancer x => LoadBalancerManager.create self x
  | OpDeleteLoadBalancer x => LoadBalancerManager.delete self x
  | OpStats x => LoadBalancerManager.stats self x
  | OpRefresh x => LoadBalancerManager.refresh self x
  end.

End Plugin.

(** ** A small in-memory deployment

    A database, a scheduler, base managers and an RPC client simple enough to
    run the driver on concrete inputs. *)

Module Fake.

Record Store := mkStore {
  agents : list Agent;
  bindings : list (string * Agent);
  rows : list (Kind * string);
  status_updates : list string;
  failing : list string;
}.

Definition kind_eqb (a b : Kind) : bool :=
  match a, b with
  | KLoadBalancer, KLoadBalancer | KListener, KListener | KPool, KPool
  | KMember, KMember | KHealthMonitor, KHealthMonitor => true
  | _, _ => false
  end.

Definition lookup_binding (d : Store) (loadbalancer_id : string)
  : option Agent :=
  snd <$> List.find (fun b => String.eqb (fst b) loadbalancer_id) (bindings d).

Definition drop_row (k : Kind) (id : string) (d : Store) : Store :=
  mkStore (agents d) (bindings d)
    (List.filter (fun r => negb (kind_eqb (fst r) k && String.eqb (snd r) id))
       (rows d))
    (status_updates d) (failing d).

Definition unbind (id : string) (d : Store) : Store :=
  mkStore (agents d)
    (List.filter (fun b => negb (String.eqb (fst b) id)) (bindings d))
    (rows d) (status_updates d) (failing d).

Definition rebind (id : string) (a : Agent) (d : Store) : Store :=
  mkStore (agents d) ((id, a) :: bindings (unbind id d))
    (rows d) (status_updates d) (failing d).

(** An agent is up when its heartbeat is not negative. *)
Definition up (a : Agent) : bool := 0 <=? heartbeat_timestamp a.

Definition registry : Registry Store := {|
  get_lbaas_agents := agents;
  is_eligible_agent := fun _ _ a => up a;
  list_loadbalancers_on_lbaas_agent := fun d id =>
    mkLoadBalancer <$>
      (fst <$> List.filter (fun b => String.eqb (agent_id (snd b)) id)
                 (bindings d));
  get_agent_hosting_loadbalancer := fun d id =>
    mkHosting <$> lookup_binding d id;
  db_delete_loadbalancer := fun d id => unbind id (drop_row KLoadBalancer id d);
  db_delete_listener := fun d id => drop_row KListener id d;
  db_delete_pool := fun d id => drop_row KPool id d;
  db_delete_pool_member := fun d id => drop_row KMember id d;
  db_delete_healthmonitor := fun d id => drop_row KHealthMonitor id d;
  update_loadbalancer_provisioning_status := fun d id =>
    mkStore (agents d) (bindings d) (rows d) (status_updates d ++ [id])
      (failing d);
|}.

(** The first agent that is up and is not the one given. *)
Definition pick (d : Store) (avoid : option Agent) : option Agent :=
  List.find (fun a =>
    up a && match avoid with
            | Some b => negb (String.eqb (agent_id a) (agent_id b))
            | None => true
            end) (agents d).

(** [schedule] binds an unbound loadbalancer to an agent that is up;
    [reschedule] moves a loadbalancer to another agent that is up, and raises
    for the ids in [failing]. *)
Definition scheduler : Scheduler Store := {|
  schedule := fun d lb _ =>
    match lookup_binding d (lb_id lb) with
    | Some _ => (Ok None, d)
    | None =>
        match pick d None with
        | Some a => (Ok (Some a), rebind (lb_id lb) a d)
        | None => (Ok None, d)
        end
    end;
  reschedule := fun d id _ =>
    if bool_decide (id ∈ failing d) then (Raise (OtherError "DBError"), d)
    else
      match pick d (lookup_binding d id) with
      | Some a => (Ok (Some a), rebind id a d)
      | None => (Ok None, d)
      end;
|}.

(** The base managers insert the row of what is created. *)
Definition base : BaseManagers Store := {|
  super_call := fun k m id d =>
    match m with
    | MCreate => mkStore (agents d) (bindings d) (rows d ++ [(k, id)])
                   (status_updates d) (failing d)
    | _ => d
    end;
|}.

(** Only the scheduler classes of [neutron_lbaas.agent_scheduler] can be
    loaded. *)
Definition importer : Importer := {|
  import_object := fun name =>
    if String.eqb name "neutron_lbaas.agent_scheduler.ChanceScheduler"
    then None else Some (OtherError "ImportError");
|}.

(** Casts to the hosts in [unreachable] raise. *)
Definition messaging (unreachable : list string) : Messaging := {|
  cast_outcome := fun _ c =>
    if bool_decide (cast_server c ∈ unreachable)
    then Some (OtherError "MessagingException") else None;
|}.

Definition a1 : Agent := mkAgent "a1" "host1" 10.
Definition a2 : Agent := mkAgent "a2" "host2" 10.
Definition a1_down : Agent := mkAgent "a1" "host1" (-1).
Definition a2_down : Agent := mkAgent "a2" "host2" (-1).

Definition world (d : Store) (active : gset string) : World Store :=
  mkWorld d ∅ ∅ active [].

Definition lb1 : LoadBalancer := mkLoadBalancer "w1".
Definition lb2 : LoadBalancer := mkLoadBalancer "w2".
Definition lb3 : LoadBalancer := mkLoadBalancer "w3".

(** A listener of a loadbalancer that no agent hosts. *)
Definition orphan : Listener := mkListener "l9" (mkLoadBalancer "w9").

Definition orphan_store : Store :=
  mkStore [a1; a2] [] [(KLoadBalancer, "w9"); (KListener, "l9")] [] [].

(** Agent a1 hosts three loadbalancers and is down; rescheduling the ids in
    [failing] raises. *)
Definition failover_store (failing : list string) : Store :=
  mkStore [a2; a1_down] [("w1", a1); ("w2", a1); ("w3", a1)]
    [(KLoadBalancer, "w1"); (KLoadBalancer, "w2"); (KLoadBalancer, "w3")]
    [] failing.

(** Agent a1 hosts w1, which has a listener with a pool. *)
Definition l1 : Listener := mkListener "l1" lb1.
Definition p1 : Pool := mkPool "p1" l1.

Definition hosted_store : Store :=
  mkStore [a1; a2] [("w1", a1)]
    [(KLoadBalancer, "w1"); (KListener, "l1"); (KPool, "p1")] [] [].

(** Monitoring switched off. *)
Definition conf_off : Conf :=
  mkConf "neutron_lbaas.agent_scheduler.ChanceScheduler" 0.

(** A scheduler class that does not exist. *)
Definition conf_unloadable : Conf := mkConf "no.such.Scheduler" 10.

(** Agent a1 is down and rescheduling its loadbalancer raises; the agent
    listed after it is down too, or up. *)
Definition stuck_store (second : Agent) : Store :=
  mkStore [a1_down; second] [("w1", a1); ("w2", a2)]
    [(KLoadBalancer, "w1"); (KLoadBalancer, "w2")] [] ["w1"].

(** Both agents are down. *)
Definition outage_store : Store :=
  mkStore [a1_down; a2_down] [("w1", a1)] [(KLoadBalancer, "w1")] [] [].

Definition conf : Conf :=
  mkConf "neutron_lbaas.agent_scheduler.ChanceScheduler" 10.

Definition self : Driver := mkDriver "haproxy".

(** The driver on this deployment; casts to the hosts in [unreachable]
    raise. *)
Definition init : Conf -> option string -> M Store Driver :=
  AgentDriverBase.__init__ (Imp:=importer).

Definition poll : Driver -> M Store unit :=
  AgentDriverBase._check_agents_states
    (R:=registry) (Sch:=scheduler) (Msg:=messaging []).

Definition delete : Driver -> Resource -> M Store unit :=
  delete_resource (R:=registry) (B:=base) (Msg:=messaging []).

Definition create_loadbalancer : Driver -> LoadBalancer -> M Store unit :=
  LoadBalancerManager.create (Sch:=scheduler) (B:=base) (Msg:=messaging []).

Definition update : Driver -> Change -> M Store unit :=
  update_change (R:=registry) (B:=base) (Msg:=messaging []).

Definition run : Driver -> Operation -> M Store unit :=
  run_operation (R:=registry) (Sch:=scheduler) (B:=base) (Msg:=messaging []).

Definition reschedule_all (unreachable : list string)
  : Driver -> Agent -> M Store unit :=
  AgentDriverBase._reschedule_instances
    (R:=registry) (Sch:=scheduler) (Msg:=messaging unreachable).

End Fake.

(** ** Reading the record of calls *)

Definition count_events (P : Event -> bool) (tr : list Event) : nat :=
  length (List.filter P tr).

(** [_reschedule_instances] starts by listing the loadbalancers of its agent,
    and nothing else lists them. *)
Definition is_reschedule_of (id : string) (e : Event) : bool :=
  match e with
  | EvDb (ListLoadbalancersOnLbaasAgent x) => String.eqb x id
  | _ => false
  end.

(** The warning logged when an agent leaves the active agents. *)
Definition is_inactive_warning_of (id : string) (e : Event) : bool :=
  match e with
  | EvLogWarning msg (x :: _) =>
      String.eqb msg AgentDriverBase.became_inactive_msg && String.eqb x id
  | _ => false
  end.

Definition is_cast (e : Event) : bool :=
  match e with EvCast _ => true | _ => false end.

Definition is_loop_start (e : Event) : bool :=
  match e with EvLoopStart _ _ => true | _ => false end.

Definition is_create_consumer (e : Event) : bool :=
  match e with EvCreateConsumer _ => true | _ => false end.

Definition is_reschedule_call (e : Event) : bool :=
  match e with EvReschedule _ _ => true | _ => false end.

(** Casts of one method. *)
Definition is_cast_of (method : string) (e : Event) : bool :=
  match e with
  | EvCast c => String.eqb (cast_method c) method
  | _ => false
  end.

(** What [_reschedule_instances] may record for an agent: the listing of the
    agent's loadbalancers, scheduler calls, the warning about a loadbalancer
    without eligible agent, [instance_added] casts, and [instance_removed]
    casts to the agent's own host. *)
Definition rescheduler_event (agent : Agent) (e : Event) : bool :=
  match e with
  | EvDb (ListLoadbalancersOnLbaasAgent x) => String.eqb x (agent_id agent)
  | EvReschedule _ _ => true
  | EvLogWarning msg _ => String.eqb msg AgentDriverBase.no_eligible_agent_msg
  | EvCast c =>
      String.eqb (cast_method c) "instance_added"
      || (String.eqb (cast_method c) "instance_removed"
          && String.eqb (cast_server c) (agent_host agent))
  | _ => false
  end.

(** Writes to the database made by the driver itself. *)
Definition is_db_write (e : Event) : bool :=
  match e with
  | EvDb (DeleteLoadbalancer _) | EvDb (DeleteListener _) | EvDb (DeletePool _)
  | EvDb (DeletePoolMember _) | EvDb (DeleteHealthmonitor _)
  | EvDb (UpdateLoadbalancerProvisioningStatus _) => true
  | _ => false
  end.

(** Predicates on events that nothing in the loop of [_reschedule_instances]
    satisfies. *)
Definition quiet (P : Event -> bool) : Prop :=
  (forall id dd, P (EvReschedule id dd) = false) /\
  (forall c, P (EvCast c) = false) /\
  (forall args, P (EvLogWarning AgentDriverBase.no_eligible_agent_msg args)
                = false).

(** What a scheduler that only binds loadbalancers keeps: the liveness of
    every agent is the same before and after [reschedule]. *)
Definition reschedule_keeps_liveness {D : Type} {R : Registry D}
    {Sch : Scheduler D} : Prop :=
  forall (d : D) (id dd : string) (b : Agent),
    is_eligible_agent (snd (reschedule d id dd)) true b
    = is_eligible_agent d true b.

(** * Properties *)

(** ** Sequencing and loops *)

Section Sequencing.
Context {D : Type}.

Lemma bind_ok {A B} (m : M D A) (f : A -> M D B) w a w' :
  m w = (Ok a, w') -> bind m f w = f a w'.
Proof. intros E. unfold bind. now rewrite E. Qed.

Lemma bind_raise {A B} (m : M D A) (f : A -> M D B) w e w' :
  m w = (Raise e, w') -> bind m f w = (Raise e, w').
Proof. intros E. unfold bind. now rewrite E. Qed.

(** A loop whose first iterations return goes on with the next one. *)
Lemma for_each_split {A} (body : A -> M D unit) pre x post w :
  fst (for_each body pre w) = Ok tt ->
  for_each body (pre ++ x :: post) w =
  (body x >> for_each body post) (snd (for_each body pre w)).
Proof.
  revert w. induction pre as [|y pre IH]; intros w Hpre; simpl in *.
  - reflexivity.
  - unfold bind in *. destruct (body y w) as [[[]|e] w1]; simpl in *.
    + now apply IH.
    + discriminate.
Qed.

(** A loop stops at the first iteration that raises. *)
Lemma for_each_raise {A} (body : A -> M D unit) pre x post w e :
  fst (for_each body pre w) = Ok tt ->
  fst (body x (snd (for_each body pre w))) = Raise e ->
  for_each body (pre ++ x :: post) w =
  (Raise e, snd (body x (snd (for_each body pre w)))).
Proof.
  intros Hpre Hx. rewrite for_each_split by assumption.
  unfold bind. destruct (body x _) as [[[]|e'] w1]; simpl in *; congruence.
Qed.

(** What every iteration keeps, the loop keeps, whether it returns or
    raises. *)
Lemma for_each_keeps {A} (body : A -> M D unit) (I : World D -> Prop) xs :
  (forall x w, x ∈ xs -> I w -> I (snd (body x w))) ->
  forall w, I w -> I (snd (for_each body xs w)).
Proof.
  induction xs as [|x xs IH]; intros Hstep w Hw; simpl.
  - assumption.
  - unfold bind. pose proof (Hstep x w ltac:(left) Hw) as Hx.
    destruct (body x w) as [[[]|e] w1]; simpl in *.
    + apply IH; [|assumption]. intros y w' Hy. apply Hstep. now right.
    + assumption.
Qed.

End Sequencing.

(** ** Resolving the agent of a loadbalancer *)

Section Agents.
Context {D : Type} {R : Registry D} {Sch : Scheduler D} {B : BaseManagers D}
  {Msg : Messaging}.

(** [get_loadbalancer_agent] records its query and changes nothing else; it
    returns the agent the database names or raises [NoActiveLbaasAgent]. *)
Lemma get_loadbalancer_agent_spec (id : string) (w : World D) :
  AgentDriverBase.get_loadbalancer_agent id w =
  (match get_agent_hosting_loadbalancer (db w) id with
   | Some hosting => Ok (hosting_agent hosting)
   | None => Raise (NoActiveLbaasAgent id)
   end,
   mkWorld (db w) (plugin_attrs w) (db_attrs w) (active_agents w)
     (trace w ++ [EvDb (GetAgentHostingLoadbalancer id)])).
Proof.
  unfold AgentDriverBase.get_loadbalancer_agent, bind, db_read, emit. simpl.
  destruct (get_agent_hosting_loadbalancer (db w) id); reflexivity.
Qed.

(** C10: [get_loadbalancer_agent] returns the hosting agent when the database
    reports one and raises [NoActiveLbaasAgent] when it reports none; what it
    returns is never false.  In the loadbalancer's [delete], the database
    deletion is made only with such an agent at hand, and the
    [delete_loadbalancer] cast to its host is made right after it: the
    [if agent:] test never fails. *)
Theorem C10_agent_never_none (self : Driver) (loadbalancer : LoadBalancer)
    (w : World D) :
  (forall id w0,
     match get_agent_hosting_loadbalancer (db w0) id with
     | Some hosting =>
         fst (AgentDriverBase.get_loadbalancer_agent id w0)
         = Ok (hosting_agent hosting)
         /\ truthy (hosting_agent hosting) = true
     | None =>
         fst (AgentDriverBase.get_loadbalancer_agent id w0)
         = Raise (NoActiveLbaasAgent id)
     end) /\
  exists new,
    trace (snd (LoadBalancerManager.delete self loadbalancer w))
    = trace w ++ new /\
    (In (EvDb (DeleteLoadbalancer (lb_id loadbalancer))) new ->
     exists agent before,
       get_agent_hosting_loadbalancer
         (super_call KLoadBalancer MDelete (lb_id loadbalancer) (db w))
         (lb_id loadbalancer) = Some (mkHosting agent) /\
       new = before ++
         [EvDb (DeleteLoadbalancer (lb_id loadbalancer));
          EvCast (mkCast (agent_host agent) "delete_loadbalancer"
                    [("loadbalancer", VLoadBalancer loadbalancer)])]).
Proof.
  split.
  - intros id w0. rewrite get_loadbalancer_agent_spec.
    destruct (get_agent_hosting_loadbalancer (db w0) id); simpl; auto.
  - unfold LoadBalancerManager.delete, super.
    unfold bind at 1. unfold bind at 1. simpl.
    unfold bind at 1. rewrite get_loadbalancer_agent_spec. simpl.
    destruct (get_agent_hosting_loadbalancer _ _) as [[agent]|] eqn:Hhost.
    + simpl. unfold db_write, bind, emit, set_db,
        LoadBalancerAgentApi.delete_loadbalancer, LoadBalancerAgentApi.cast.
      simpl.
      eexists. split.
      * destruct (cast_outcome _ _); simpl;
          repeat rewrite <- app_assoc; simpl; reflexivity.
      * intros _. exists agent. eexists. split; [reflexivity|].
        instantiate (1 := [_; _]). reflexivity.
    + simpl. eexists. split.
      * rewrite <- app_assoc. reflexivity.
      * simpl. intros [H|[H|[]]]; discriminate.
Qed.

End Agents.

(** ** Deleting and creating resources *)

Section Managers.
Context {D : Type} {R : Registry D} {Sch : Scheduler D} {B : BaseManagers D}
  {Msg : Messaging}.

Lemma super_spec (k : Kind) (m : Method) (id : string) (w : World D) :
  super k m id w =
  (Ok tt, mkWorld (super_call k m id (db w)) (plugin_attrs w) (db_attrs w)
            (active_agents w) (trace w ++ [EvSuper k m id])).
Proof. reflexivity. Qed.

(** When the database names no agent for the owning loadbalancer, a manager
    makes the base manager's call and the query, then raises
    [NoActiveLbaasAgent]. *)
Lemma without_agent {A} (k : Kind) (m : Method) (id owner : string)
    (rest : Agent -> M D A) (w : World D) :
  get_agent_hosting_loadbalancer (super_call k m id (db w)) owner = None ->
  (super k m id >>
   let* agent := AgentDriverBase.get_loadbalancer_agent owner in rest agent) w
  = (Raise (NoActiveLbaasAgent owner),
     mkWorld (super_call k m id (db w)) (plugin_attrs w) (db_attrs w)
       (active_agents w)
       (trace w ++ [EvSuper k m id; EvDb (GetAgentHostingLoadbalancer owner)])).
Proof.
  intros Hnone. erewrite bind_ok by apply super_spec.
  erewrite bind_raise; [reflexivity|].
  rewrite get_loadbalancer_agent_spec. simpl. rewrite Hnone.
  now rewrite <- app_assoc.
Qed.

(** C1, as the code has it: deleting a listener, pool, member or health
    monitor whose loadbalancer has no hosting agent raises
    [NoActiveLbaasAgent] right after the base manager's delete.  The
    resource is not deleted from the database, the provisioning status is
    not updated and nothing is cast. *)
Theorem C1_delete_without_agent_stops (self : Driver) (r : Resource)
    (w : World D) :
  get_agent_hosting_loadbalancer
    (super_call (resource_kind r) MDelete (resource_id r) (db w))
    (resource_owner r) = None ->
  delete_resource self r w =
  (Raise (NoActiveLbaasAgent (resource_owner r)),
   mkWorld (super_call (resource_kind r) MDelete (resource_id r) (db w))
     (plugin_attrs w) (db_attrs w) (active_agents w)
     (trace w ++ [EvSuper (resource_kind r) MDelete (resource_id r);
                  EvDb (GetAgentHostingLoadbalancer (resource_owner r))])).
Proof.
  destruct r; simpl; intros Hnone;
    [unfold ListenerManager.delete | unfold PoolManager.delete
    | unfold MemberManager.delete | unfold HealthMonitorManager.delete];
    now apply without_agent.
Qed.

(** C2: [PoolManager.create] starts with the base manager's delete, not its
    create, where [ListenerManager.create] starts with the base manager's
    create; the query for the agent and the [create_pool] cast follow. *)
Theorem C2_pool_create_calls_base_delete (self : Driver) (pool : Pool)
    (listener : Listener) (w : World D) :
  (exists rest,
     trace (snd (PoolManager.create self pool w))
     = trace w ++ EvSuper KPool MDelete (pool_id pool) :: rest /\
     (forall id, ~ In (EvSuper KPool MCreate id) rest)) /\
  (exists rest,
     trace (snd (ListenerManager.create self listener w))
     = trace w ++ EvSuper KListener MCreate (listener_id listener) :: rest).
Proof.
  split.
  - unfold PoolManager.create.
    erewrite bind_ok by apply super_spec.
    unfold bind. rewrite get_loadbalancer_agent_spec. simpl.
    destruct (get_agent_hosting_loadbalancer _ _) as [[agent]|]; simpl.
    + unfold LoadBalancerAgentApi.create_pool, LoadBalancerAgentApi.cast.
      simpl. eexists. split.
      * destruct (cast_outcome _ _); simpl;
          repeat rewrite <- app_assoc; simpl; reflexivity.
      * intros id [H|[H|[]]]; discriminate.
    + eexists. split.
      * rewrite <- app_assoc. simpl. reflexivity.
      * intros id [H|[]]; discriminate.
  - unfold ListenerManager.create.
    erewrite bind_ok by apply super_spec.
    unfold bind. rewrite get_loadbalancer_agent_spec. simpl.
    destruct (get_agent_hosting_loadbalancer _ _) as [[agent]|]; simpl.
    + unfold LoadBalancerAgentApi.create_listener, LoadBalancerAgentApi.cast.
      simpl. eexists.
      destruct (cast_outcome _ _); simpl;
        repeat rewrite <- app_assoc; simpl; reflexivity.
    + eexists. rewrite <- app_assoc. simpl. reflexivity.
Qed.

(** C7: when [schedule] returns no agent for the loadbalancer being created,
    [create] raises [NoEligibleLbaasAgent] after the base manager's create
    and the scheduler call, and casts nothing.  The database is left as the
    scheduler left it: a loadbalancer that had no agent, and that the
    scheduler bound to none, has none. *)
Theorem C7_create_without_eligible_agent (self : Driver)
    (loadbalancer : LoadBalancer) (w : World D) :
  let id := lb_id loadbalancer in
  let d1 := super_call KLoadBalancer MCreate id (db w) in
  let out := schedule d1 loadbalancer (device_driver self) in
  get_agent_hosting_loadbalancer d1 id = None ->
  fst out = Ok None ->
  get_agent_hosting_loadbalancer (snd out) id
  = get_agent_hosting_loadbalancer d1 id ->
  let r := LoadBalancerManager.create self loadbalancer w in
  fst r = Raise (NoEligibleLbaasAgent id) /\
  get_agent_hosting_loadbalancer (db (snd r)) id = None /\
  db (snd r) = snd out /\
  trace (snd r)
  = trace w ++ [EvSuper KLoadBalancer MCreate id;
                EvSchedule id (device_driver self)] /\
  count_events is_cast (trace (snd r)) = count_events is_cast (trace w).
Proof.
  intros id d1 out Hnew Hnone Hframe r. subst r.
  unfold LoadBalancerManager.create.
  erewrite bind_ok by apply super_spec.
  unfold bind, call_schedule, bind, emit, set_db. simpl.
  fold id. fold d1. fold out.
  destruct out as [res d2] eqn:Hout. simpl in *. subst res. simpl.
  repeat split.
  - congruence.
  - now rewrite <- app_assoc.
  - rewrite <- app_assoc. unfold count_events.
    rewrite List.filter_app. simpl. rewrite length_app. simpl. lia.
Qed.

End Managers.

(** ** Rescheduling the loadbalancers of an agent *)

Section Rescheduling.
Context {D : Type} {R : Registry D} {Sch : Scheduler D} {B : BaseManagers D}
  {Msg : Messaging}.

Lemma count_events_app (P : Event -> bool) (xs ys : list Event) :
  count_events P (xs ++ ys) = (count_events P xs + count_events P ys)%nat.
Proof. unfold count_events. now rewrite List.filter_app, length_app. Qed.

Lemma count_events_record (P : Event -> bool) (e : Event) (w : World D) :
  count_events P (trace (record e w))
  = (count_events P (trace w) + if P e then 1 else 0)%nat.
Proof.
  unfold record. simpl. rewrite count_events_app. unfold count_events. simpl.
  now destruct (P e).
Qed.

Lemma count_events_single (P : Event -> bool) (e : Event) :
  count_events P [e] = if P e then 1%nat else 0%nat.
Proof. unfold count_events. simpl. now destruct (P e). Qed.

Lemma call_reschedule_spec (id dd : string) (w : World D) :
  call_reschedule id dd w =
  (fst (reschedule (db w) id dd),
   mkWorld (snd (reschedule (db w) id dd)) (plugin_attrs w) (db_attrs w)
     (active_agents w) (trace w ++ [EvReschedule id dd])).
Proof.
  unfold call_reschedule, bind, emit, record, set_db. simpl.
  now destruct (reschedule (db w) id dd).
Qed.

Lemma cast_spec (host method : string) (kwargs : list (string * Value))
    (w : World D) :
  LoadBalancerAgentApi.cast host method kwargs w =
  (match cast_outcome (trace w) (mkCast host method kwargs) with
   | None => Ok tt
   | Some e => Raise e
   end, record (EvCast (mkCast host method kwargs)) w).
Proof.
  unfold LoadBalancerAgentApi.cast, emit.
  now destruct (cast_outcome _ _).
Qed.

(** The events one rescheduled loadbalancer adds to the record: the
    scheduler call, then either the two casts, the first cast alone when it
    raises, or the warning. *)
Lemma reschedule_instance_spec (self : Driver) (agent : Agent)
    (lb : LoadBalancer) (w : World D) :
  let id := lb_id lb in
  let dd := device_driver self in
  let asked := trace w ++ [EvReschedule id dd] in
  let added na := mkCast (agent_host na) "instance_added"
                    [("loadbalancer_id", VStr id)] in
  let removed := mkCast (agent_host agent) "instance_removed"
                   [("loadbalancer_id", VStr id)] in
  let w' := snd (AgentDriverBase.reschedule_instance self agent lb w) in
  db w' = snd (reschedule (db w) id dd) /\
  active_agents w' = active_agents w /\
  match fst (reschedule (db w) id dd) with
  | Raise e =>
      fst (AgentDriverBase.reschedule_instance self agent lb w) = Raise e /\ trace w' = asked
  | Ok None =>
      fst (AgentDriverBase.reschedule_instance self agent lb w) = Ok tt /\
      trace w' = asked ++ [EvLogWarning AgentDriverBase.no_eligible_agent_msg [id]]
  | Ok (Some na) =>
      match cast_outcome asked (added na) with
      | Some e =>
          fst (AgentDriverBase.reschedule_instance self agent lb w) = Raise e /\
          trace w' = asked ++ [EvCast (added na)]
      | None =>
          fst (AgentDriverBase.reschedule_instance self agent lb w)
          = match cast_outcome (asked ++ [EvCast (added na)]) removed with
            | None => Ok tt
            | Some e => Raise e
            end /\
          trace w' = asked ++ [EvCast (added na); EvCast removed]
      end
  end.
Proof.
  intros id dd asked added removed w'. subst w'.
  unfold AgentDriverBase.reschedule_instance, bind.
  rewrite call_reschedule_spec. fold id. fold dd.
  destruct (reschedule (db w) id dd) as [[[na|]|e] d2]; simpl.
  - unfold LoadBalancerAgentApi.instance_added,
      LoadBalancerAgentApi.instance_removed.
    rewrite cast_spec. simpl. fold asked. fold (added na).
    destruct (cast_outcome asked (added na)) as [e|]; simpl.
    + auto.
    + rewrite cast_spec. simpl. fold removed.
      repeat split. now rewrite <- app_assoc.
  - auto.
  - auto.
Qed.

Lemma reschedule_instances_unfold (self : Driver) (agent : Agent)
    (w : World D) :
  AgentDriverBase._reschedule_instances self agent w =
  for_each (AgentDriverBase.reschedule_instance self agent)
    (list_loadbalancers_on_lbaas_agent (db w) (agent_id agent))
    (record (EvDb (ListLoadbalancersOnLbaasAgent (agent_id agent))) w).
Proof. reflexivity. Qed.

Lemma reschedule_instance_extends (self : Driver) (agent : Agent)
    (lb : LoadBalancer) (w : World D) :
  exists new,
    trace (snd (AgentDriverBase.reschedule_instance self agent lb w))
    = trace w ++ new.
Proof.
  destruct (reschedule_instance_spec self agent lb w) as (_ & _ & H).
  destruct (fst (reschedule _ _ _)) as [[na|]|e].
  - destruct (cast_outcome _ _); destruct H as [_ ->];
      rewrite <- app_assoc; eauto.
  - destruct H as [_ ->]. rewrite <- app_assoc. eauto.
  - destruct H as [_ ->]. eauto.
Qed.

Lemma reschedule_loop_extends (self : Driver) (agent : Agent)
    (lbs : list LoadBalancer) (w : World D) :
  exists new,
    trace (snd (for_each (AgentDriverBase.reschedule_instance self agent)
                  lbs w))
    = trace w ++ new.
Proof.
  apply (for_each_keeps _ (fun w' => exists new, trace w' = trace w ++ new)).
  - intros lb w1 _ [new1 H1].
    destruct (reschedule_instance_extends self agent lb w1) as [new2 H2].
    exists (new1 ++ new2). now rewrite H2, H1, app_assoc.
  - exists []. now rewrite app_nil_r.
Qed.

(** C4, as the code has it: the first loadbalancer of the batch whose
    rescheduling raises (the scheduler or a cast) ends the batch.  The
    exception leaves [_reschedule_instances], and the world is the one that
    loadbalancer's step left: the loadbalancers after it are not touched. *)
Theorem C4_failure_ends_batch (self : Driver) (agent : Agent) (w : World D)
    (pre post : list LoadBalancer) (lb : LoadBalancer) (e : Exn) :
  let step := AgentDriverBase.reschedule_instance self agent in
  let w0 := record (EvDb (ListLoadbalancersOnLbaasAgent (agent_id agent))) w in
  list_loadbalancers_on_lbaas_agent (db w) (agent_id agent)
  = pre ++ lb :: post ->
  fst (for_each step pre w0) = Ok tt ->
  fst (step lb (snd (for_each step pre w0))) = Raise e ->
  AgentDriverBase._reschedule_instances self agent w
  = (Raise e, snd (step lb (snd (for_each step pre w0)))).
Proof.
  intros step w0 Hlist Hpre Hfail.
  rewrite reschedule_instances_unfold, Hlist.
  now apply for_each_raise.
Qed.

(** C5: when the scheduler gives a new agent for a loadbalancer of the batch,
    the [instance_added] cast to the new agent's host is made right after
    the scheduler call, and the [instance_removed] cast to the old agent's
    host comes only after it: directly after when [instance_added] returns,
    not at all when it raises. *)
Theorem C5_added_before_removed (self : Driver) (agent new_agent : Agent)
    (w : World D) (pre post : list LoadBalancer) (lb : LoadBalancer) :
  let step := AgentDriverBase.reschedule_instance self agent in
  let w0 := record (EvDb (ListLoadbalancersOnLbaasAgent (agent_id agent))) w in
  let w1 := snd (for_each step pre w0) in
  let asked := trace w1 ++ [EvReschedule (lb_id lb) (device_driver self)] in
  let added := mkCast (agent_host new_agent) "instance_added"
                 [("loadbalancer_id", VStr (lb_id lb))] in
  let removed := mkCast (agent_host agent) "instance_removed"
                   [("loadbalancer_id", VStr (lb_id lb))] in
  list_loadbalancers_on_lbaas_agent (db w) (agent_id agent)
  = pre ++ lb :: post ->
  fst (for_each step pre w0) = Ok tt ->
  fst (reschedule (db w1) (lb_id lb) (device_driver self))
  = Ok (Some new_agent) ->
  exists rest : list Event,
    trace (snd (AgentDriverBase._reschedule_instances self agent w))
    = asked ++ EvCast added :: rest /\
    match cast_outcome asked added with
    | None => exists rest', rest = EvCast removed :: rest'
    | Some _ => rest = []
    end.
Proof.
  intros step w0 w1 asked added removed Hlist Hpre Hnew.
  rewrite reschedule_instances_unfold, Hlist.
  fold step. fold w0. rewrite for_each_split by assumption. fold w1.
  destruct (reschedule_instance_spec self agent lb w1) as (_ & _ & H).
  fold step in H. rewrite Hnew in H. fold asked added removed in H.
  unfold bind. destruct (step lb w1) as [r w2]. simpl in H.
  destruct (cast_outcome asked added) as [e|].
  - destruct H as [-> Htr]. exists []. simpl. auto.
  - destruct H as [-> Htr].
    destruct (cast_outcome _ removed) as [e|].
    + exists [EvCast removed]. simpl. split; eauto.
    + destruct (reschedule_loop_extends self agent post w2) as [new Hnew'].
      fold step in Hnew'. exists (EvCast removed :: new). split; [|eauto].
      rewrite Hnew', Htr, <- app_assoc. reflexivity.
Qed.

(** C8: when the scheduler gives no agent for a loadbalancer of the batch,
    its step records the scheduler call and a warning with the
    loadbalancer's id, casts nothing and leaves the database as the
    scheduler left it, so the agent hosting the loadbalancer is the one the
    scheduler left; the batch goes on with the next loadbalancer. *)
Theorem C8_no_eligible_agent_keeps_assignment (self : Driver) (agent : Agent)
    (w : World D) (pre post : list LoadBalancer) (lb : LoadBalancer) :
  let step := AgentDriverBase.reschedule_instance self agent in
  let w0 := record (EvDb (ListLoadbalancersOnLbaasAgent (agent_id agent))) w in
  let w1 := snd (for_each step pre w0) in
  let out := reschedule (db w1) (lb_id lb) (device_driver self) in
  list_loadbalancers_on_lbaas_agent (db w) (agent_id agent)
  = pre ++ lb :: post ->
  fst (for_each step pre w0) = Ok tt ->
  fst out = Ok None ->
  get_agent_hosting_loadbalancer (snd out) (lb_id lb)
  = get_agent_hosting_loadbalancer (db w1) (lb_id lb) ->
  let w2 := snd (step lb w1) in
  fst (step lb w1) = Ok tt /\
  get_agent_hosting_loadbalancer (db w2) (lb_id lb)
  = get_agent_hosting_loadbalancer (db w1) (lb_id lb) /\
  db w2 = snd out /\
  active_agents w2 = active_agents w1 /\
  trace w2
  = trace w1 ++ [EvReschedule (lb_id lb) (device_driver self);
                 EvLogWarning AgentDriverBase.no_eligible_agent_msg
                   [lb_id lb]] /\
  AgentDriverBase._reschedule_instances self agent w = for_each step post w2.
Proof.
  intros step w0 w1 out Hlist Hpre Hnone Hframe w2.
  destruct (reschedule_instance_spec self agent lb w1) as (Hdb & Hact & H).
  fold step in Hdb, Hact, H. fold out in Hdb, H. fold w2 in Hdb, Hact, H.
  rewrite Hnone in H. destruct H as [Hok Htr].
  repeat split; try assumption.
  - now rewrite Hdb.
  - now rewrite Htr, <- app_assoc.
  - rewrite reschedule_instances_unfold, Hlist.
    fold step. fold w0. rewrite for_each_split by assumption. fold w1.
    unfold bind. subst w2. destruct (step lb w1) as [r w2']. simpl in *.
    now rewrite Hok.
Qed.

End Rescheduling.

(** ** Monitoring the agents *)

Section Monitoring.
Context {D : Type} {R : Registry D} {Sch : Scheduler D} {B : BaseManagers D}
  {Msg : Messaging}.

Lemma is_reschedule_of_quiet (id : string) : quiet (is_reschedule_of id).
Proof. repeat split. Qed.

Lemma is_inactive_warning_of_quiet (id : string) :
  quiet (is_inactive_warning_of id).
Proof. repeat split. intros [|x args]; reflexivity. Qed.

Lemma reschedule_instance_quiet (P : Event -> bool) (self : Driver)
    (agent : Agent) (lb : LoadBalancer) (w : World D) :
  quiet P ->
  count_events P (trace (snd (AgentDriverBase.reschedule_instance self agent lb w)))
  = count_events P (trace w).
Proof.
  intros (Hr & Hc & Hl).
  destruct (reschedule_instance_spec self agent lb w) as (_ & _ & H).
  destruct (fst (reschedule _ _ _)) as [[na|]|e].
  - destruct (cast_outcome _ _); destruct H as [_ ->];
      rewrite !count_events_app; unfold count_events; simpl;
      rewrite ?Hr, ?Hc; simpl; lia.
  - destruct H as [_ ->].
    rewrite !count_events_app; unfold count_events; simpl.
    rewrite Hr, Hl. simpl. lia.
  - destruct H as [_ ->].
    rewrite !count_events_app; unfold count_events; simpl.
    rewrite Hr. simpl. lia.
Qed.

(** [_reschedule_instances] leaves the active agents alone and lists the
    loadbalancers of its agent once. *)
Lemma reschedule_instances_counts (P : Event -> bool) (self : Driver)
    (agent : Agent) (w : World D) :
  quiet P ->
  let w' := snd (AgentDriverBase._reschedule_instances self agent w) in
  active_agents w' = active_agents w /\
  count_events P (trace w')
  = (count_events P (trace w)
     + if P (EvDb (ListLoadbalancersOnLbaasAgent (agent_id agent)))
       then 1 else 0)%nat.
Proof.
  intros HP w'. subst w'. rewrite reschedule_instances_unfold.
  rewrite <- count_events_record.
  set (w0 := record _ w).
  change (active_agents w) with (active_agents w0).
  apply (for_each_keeps _ (fun w' =>
    active_agents w' = active_agents w0 /\
    count_events P (trace w') = count_events P (trace w0))); [|auto].
  intros lb w1 _ [Hact Hcount].
  destruct (reschedule_instance_spec self agent lb w1) as (_ & Hact1 & _).
  rewrite Hact1, reschedule_instance_quiet by assumption. auto.
Qed.

(** With a scheduler that keeps liveness, the step of an agent leaves every
    agent as up or down as it was. *)
Lemma check_agent_state_liveness (self : Driver) (agent : Agent) (w : World D) :
  reschedule_keeps_liveness ->
  forall b,
    is_eligible_agent
      (db (snd (AgentDriverBase.check_agent_state self agent w))) true b
    = is_eligible_agent (db w) true b.
Proof.
  intros Hframe.
  unfold AgentDriverBase.check_agent_state, bind, get_active_agents, get_db.
  simpl.
  destruct (negb (is_eligible_agent (db w) true agent) &&
            bool_decide (agent_id agent ∈ active_agents w)); simpl.
  - set (w1 := record _ _).
    change (db w) with (db w1).
    assert (Hloop : forall b,
      is_eligible_agent
        (db (snd (AgentDriverBase._reschedule_instances self agent w1))) true b
      = is_eligible_agent (db w1) true b).
    { rewrite reschedule_instances_unfold.
      set (w0 := record _ w1). change (db w1) with (db w0).
      apply (for_each_keeps _ (fun w' => forall b,
        is_eligible_agent (db w') true b = is_eligible_agent (db w0) true b));
        [|reflexivity].
      intros lb w2 _ Hkept b.
      destruct (reschedule_instance_spec self agent lb w2) as (Hdb & _).
      rewrite Hdb, Hframe. apply Hkept. }
    destruct (AgentDriverBase._reschedule_instances self agent w1) as [r w2].
    exact Hloop.
  - destruct (is_eligible_agent (db w) true agent &&
              negb (bool_decide (agent_id agent ∈ active_agents w)));
      reflexivity.
Qed.


(** An agent that is up and not among the active agents: it is added, and
    that is all. *)
Lemma check_agent_state_up (self : Driver) (agent : Agent) (w : World D) :
  is_eligible_agent (db w) true agent = true ->
  agent_id agent ∉ active_agents w ->
  AgentDriverBase.check_agent_state self agent w =
  (Ok tt, mkWorld (db w) (plugin_attrs w) (db_attrs w)
            ({[agent_id agent]} ∪ active_agents w) (trace w)).
Proof.
  intros Hup Hout. unfold AgentDriverBase.check_agent_state, bind,
    get_active_agents, get_db. simpl. rewrite Hup.
  rewrite bool_decide_eq_false_2 by assumption. reflexivity.
Qed.


(** The step of another agent neither adds nor removes [id], and neither
    reschedules the agent [id] nor logs that it became inactive. *)
Lemma check_agent_state_other (self : Driver) (agent : Agent) (id : string)
    (w : World D) :
  agent_id agent <> id ->
  let w' := snd (AgentDriverBase.check_agent_state self agent w) in
  (id ∈ active_agents w' <-> id ∈ active_agents w) /\
  count_events (is_reschedule_of id) (trace w')
  = count_events (is_reschedule_of id) (trace w) /\
  count_events (is_inactive_warning_of id) (trace w')
  = count_events (is_inactive_warning_of id) (trace w).
Proof.
  intros Hne w'. subst w'.
  unfold AgentDriverBase.check_agent_state, bind, get_active_agents, get_db. simpl.
  destruct (negb (is_eligible_agent (db w) true agent) &&
            bool_decide (agent_id agent ∈ active_agents w)); simpl.
  - set (w1 := record _ _).
    destruct (reschedule_instances_counts (is_reschedule_of id) self agent w1
                (is_reschedule_of_quiet id)) as [Hact Hres].
    destruct (reschedule_instances_counts (is_inactive_warning_of id) self
                agent w1 (is_inactive_warning_of_quiet id)) as [_ Hwarn].
    destruct (AgentDriverBase._reschedule_instances self agent w1) as [r w2].
    simpl in *. rewrite Hact, Hres, Hwarn. subst w1. simpl.
    rewrite !count_events_app, !count_events_single. simpl.
    split.
    { rewrite elem_of_difference, elem_of_singleton.
      split; [tauto|]. intros Hin. split; [assumption|congruence]. }
    apply String.eqb_neq in Hne. rewrite Hne, ?andb_false_r. simpl.
    split; lia.
  - destruct (is_eligible_agent (db w) true agent &&
              negb (bool_decide (agent_id agent ∈ active_agents w))); simpl.
    + split; [|auto]. rewrite elem_of_union, elem_of_singleton.
      split; [intros [Heq|Hin]; [congruence|assumption] | auto].
    + tauto.
Qed.

Lemma check_agents_states_unfold (self : Driver) (w : World D) :
  AgentDriverBase._check_agents_states self w =
  for_each (AgentDriverBase.check_agent_state self)
    (get_lbaas_agents (db w)) (record (EvDb GetLbaasAgents) w).
Proof. reflexivity. Qed.

(** In a roster without two agents of the same id, the agents before and
    after one of them have other ids. *)
Lemma roster_other_ids (pre post : list Agent) (agent : Agent) :
  NoDup (agent_id <$> (pre ++ agent :: post)) ->
  (forall b, b ∈ pre -> agent_id b <> agent_id agent) /\
  (forall b, b ∈ post -> agent_id b <> agent_id agent).
Proof.
  rewrite fmap_app, fmap_cons. intros Hnd.
  apply NoDup_app in Hnd as (_ & Hpre & Hpost).
  apply NoDup_cons in Hpost as [Hpost _].
  split; intros b Hb Heq.
  - apply (Hpre (agent_id b)).
    + apply list_elem_of_fmap. eauto.
    + rewrite Heq. left.
  - apply Hpost. rewrite <- Heq. apply list_elem_of_fmap. eauto.
Qed.

(** What the steps of agents with other ids keep about the agent [id]. *)
Lemma other_agents_keep (self : Driver) (id : string) (agents : list Agent)
    (w : World D) :
  (forall b, b ∈ agents -> agent_id b <> id) ->
  let w' := snd (for_each (AgentDriverBase.check_agent_state self) agents w) in
  (id ∈ active_agents w' <-> id ∈ active_agents w) /\
  count_events (is_reschedule_of id) (trace w')
  = count_events (is_reschedule_of id) (trace w) /\
  count_events (is_inactive_warning_of id) (trace w')
  = count_events (is_inactive_warning_of id) (trace w).
Proof.
  intros Hother.
  apply (for_each_keeps _ (fun w' =>
    (id ∈ active_agents w' <-> id ∈ active_agents w) /\
    count_events (is_reschedule_of id) (trace w')
    = count_events (is_reschedule_of id) (trace w) /\
    count_events (is_inactive_warning_of id) (trace w')
    = count_events (is_inactive_warning_of id) (trace w))); [|tauto].
  intros b w1 Hb (Hact & Hres & Hwarn).
  destruct (check_agent_state_other self b id w1 (Hother b Hb))
    as (Hact1 & Hres1 & Hwarn1).
  rewrite Hact1, Hres1, Hwarn1. auto.
Qed.


(** C9, as the code has it: an agent that is not among the active agents
    and that the poll finds up when it reaches it (no step of an agent
    listed before it raises) is added to them, and that is all its
    step does: it returns, records no call (no cast, no listing of the
    agent's loadbalancers, no scheduler call) and leaves the database, so
    the loadbalancers of the agent are the same; the poll goes on with the
    next agent. *)
Theorem C9_up_agent_only_added (self : Driver) (agent : Agent) (w : World D)
    (pre post : list Agent) :
  let step := AgentDriverBase.check_agent_state self in
  let id := agent_id agent in
  let w1 := snd (for_each step pre (record (EvDb GetLbaasAgents) w)) in
  get_lbaas_agents (db w) = pre ++ agent :: post ->
  NoDup (agent_id <$> (pre ++ agent :: post)) ->
  id ∉ active_agents w ->
  fst (for_each step pre (record (EvDb GetLbaasAgents) w)) = Ok tt ->
  is_eligible_agent (db w1) true agent = true ->
  let w2 := snd (step agent w1) in
  step agent w1 =
  (Ok tt, mkWorld (db w1) (plugin_attrs w1) (db_attrs w1)
            ({[id]} ∪ active_agents w1) (trace w1)) /\
  id ∈ active_agents w2 /\
  trace w2 = trace w1 /\
  db w2 = db w1 /\
  list_loadbalancers_on_lbaas_agent (db w2) id
  = list_loadbalancers_on_lbaas_agent (db w1) id /\
  AgentDriverBase._check_agents_states self w = for_each step post w2.
Proof.
  intros step id w1 Hroster Hnd Hout Hpre Hup w2.
  destruct (roster_other_ids pre post agent Hnd) as [Hbefore _].
  destruct (other_agents_keep self id pre (record (EvDb GetLbaasAgents) w)
              Hbefore) as (Hact1 & _).
  fold step in Hact1. fold w1 in Hact1.
  assert (Hout1 : id ∉ active_agents w1) by (intros Hin; now apply Hout, Hact1).
  assert (Hstep : step agent w1 =
    (Ok tt, mkWorld (db w1) (plugin_attrs w1) (db_attrs w1)
              ({[id]} ∪ active_agents w1) (trace w1)))
    by (now apply check_agent_state_up).
  split; [assumption|].
  subst w2. rewrite Hstep. simpl.
  split; [apply elem_of_union_l, elem_of_singleton; reflexivity|].
  do 3 (split; [reflexivity|]).
  rewrite check_agents_states_unfold, Hroster. fold step.
  rewrite for_each_split by assumption. fold w1.
  unfold bind. now rewrite Hstep.
Qed.

End Monitoring.

(** ** Building a driver on the plugin *)

Section Initialisation.
Context {D : Type} {R : Registry D} {Sch : Scheduler D} {B : BaseManagers D}
  {Msg : Messaging} {Imp : Importer}.

(** On a plugin without the attributes [agent_callbacks] and
    [agent_monitoring], and with a scheduler class that loads, [__init__]
    creates the consumer, empties the active agents and, with a non-zero
    interval, starts the loop. *)
Lemma init_on_fresh_plugin (conf : Conf) (name : string) (w : World D) :
  truthy name = true ->
  import_object (loadbalancer_scheduler_driver conf) = None ->
  "agent_callbacks" ∉ plugin_attrs w ->
  "agent_monitoring" ∉ plugin_attrs w ->
  AgentDriverBase.__init__ conf (Some name) w =
  (Ok (mkDriver name),
   mkWorld (db w)
     ({["conn"]} ∪ ({["agent_endpoints"]} ∪ plugin_attrs w))
     (if truthy (lbaas_agent_monitoring_interval conf)
      then {["agent_monitoring"]} ∪ ({["active_agents"]} ∪ db_attrs w)
      else {["active_agents"]} ∪ db_attrs w)
     ∅
     (trace w ++
      [EvCreateConsumer LOADBALANCER_PLUGINV2; EvConsumeInThreads;
       EvAgentNotifier] ++
      if truthy (lbaas_agent_monitoring_interval conf)
      then [EvLoopStart (lbaas_agent_monitoring_interval conf)
              (lbaas_agent_monitoring_interval conf)]
      else [])).
Proof.
  intros Hname Hload Hcb Hmon.
  assert (Hmon' : "agent_monitoring"
                  ∉ ({["conn"]} ∪ ({["agent_endpoints"]} ∪ plugin_attrs w)
                      : gset string)).
  { rewrite !elem_of_union, !elem_of_singleton.
    intros [H|[H|H]]; [discriminate|discriminate|contradiction]. }
  unfold AgentDriverBase.__init__.
  change (truthy (Some name)) with (truthy name). rewrite Hname. simpl.
  unfold AgentDriverBase._set_callbacks_on_plugin,
    AgentDriverBase._setup_agent_monitoring_on_plugin,
    AgentDriverBase.load_scheduler,
    bind, hasattr_plugin, setattr_plugin, setattr_db, set_active_agents,
    emit, record, ret. simpl.
  rewrite (bool_decide_eq_false_2 _ Hcb). simpl.
  rewrite Hload. simpl.
  rewrite (bool_decide_eq_false_2 _ Hmon'). simpl.
  destruct (truthy (lbaas_agent_monitoring_interval conf)); simpl;
    repeat rewrite <- app_assoc; reflexivity.
Qed.

(** [__init__] sets neither attribute on the plugin, so the next one finds
    the plugin as fresh as this one did. *)
Lemma init_leaves_plugin_fresh (conf : Conf) (name : string) (w : World D) :
  truthy name = true ->
  import_object (loadbalancer_scheduler_driver conf) = None ->
  "agent_callbacks" ∉ plugin_attrs w ->
  "agent_monitoring" ∉ plugin_attrs w ->
  let w' := snd (AgentDriverBase.__init__ conf (Some name) w) in
  ("agent_callbacks" ∉ plugin_attrs w') /\
  ("agent_monitoring" ∉ plugin_attrs w').
Proof.
  intros Hname Hload Hcb Hmon w'. subst w'.
  rewrite init_on_fresh_plugin by assumption. simpl.
  rewrite !elem_of_union, !elem_of_singleton.
  split; intros [H|[H|H]]; try discriminate; contradiction.
Qed.

End Initialisation.

(** ** What a poll leaves behind *)

Section Polls.
Context {D : Type} {R : Registry D} {Sch : Scheduler D} {B : BaseManagers D}
  {Msg : Messaging} {Imp : Importer}.

(** The active agents after the step of one agent, whether the step returns
    or raises: the agent is in when the database finds it up and out when it
    finds it down, and the others stay as they were. *)
Lemma check_agent_state_active (self : Driver) (agent : Agent) (w : World D)
    (x : string) :
  x ∈ active_agents (snd (AgentDriverBase.check_agent_state self agent w)) <->
  if is_eligible_agent (db w) true agent
  then x = agent_id agent \/ x ∈ active_agents w
  else x <> agent_id agent /\ x ∈ active_agents w.
Proof.
  unfold AgentDriverBase.check_agent_state, bind, get_active_agents, get_db.
  simpl.
  destruct (is_eligible_agent (db w) true agent); simpl;
    destruct (decide (agent_id agent ∈ active_agents w)) as [Hin|Hout].
  - rewrite (bool_decide_eq_true_2 _ Hin). simpl.
    split; [auto|]. intros [->|H]; assumption.
  - rewrite (bool_decide_eq_false_2 _ Hout). simpl.
    rewrite elem_of_union, elem_of_singleton. tauto.
  - rewrite (bool_decide_eq_true_2 _ Hin). simpl.
    set (w1 := record _ _).
    destruct (reschedule_instances_counts (is_reschedule_of x) self agent w1
                (is_reschedule_of_quiet x)) as [Hact _].
    destruct (AgentDriverBase._reschedule_instances self agent w1) as [r w2].
    simpl in *. rewrite Hact. subst w1. simpl.
    rewrite elem_of_difference, elem_of_singleton. tauto.
  - rewrite (bool_decide_eq_false_2 _ Hout). simpl.
    split; [|tauto]. intros H. split; [|assumption]. congruence.
Qed.

(** The step of an agent whose membership already tells its liveness does
    nothing. *)
Lemma check_agent_state_stable (self : Driver) (agent : Agent) (w : World D) :
  (agent_id agent ∈ active_agents w
   <-> is_eligible_agent (db w) true agent = true) ->
  AgentDriverBase.check_agent_state self agent w = (Ok tt, w).
Proof.
  intros Hagree.
  unfold AgentDriverBase.check_agent_state, bind, get_active_agents, get_db.
  simpl.
  destruct (is_eligible_agent (db w) true agent); simpl.
  - rewrite bool_decide_eq_true_2 by tauto. reflexivity.
  - rewrite bool_decide_eq_false_2; [reflexivity|].
    intros Hin. apply Hagree in Hin. discriminate.
Qed.

Lemma check_agents_loop_stable (self : Driver) (agents : list Agent)
    (w : World D) :
  (forall b, b ∈ agents ->
     (agent_id b ∈ active_agents w
      <-> is_eligible_agent (db w) true b = true)) ->
  for_each (AgentDriverBase.check_agent_state self) agents w = (Ok tt, w).
Proof.
  induction agents as [|a agents IH]; intros Hagree; simpl.
  - reflexivity.
  - unfold bind. rewrite check_agent_state_stable by (apply Hagree; left).
    apply IH. intros b Hb. apply Hagree. now right.
Qed.

(** After a loop that returns over agents of distinct ids, with a scheduler
    that keeps liveness, each of them is among the active agents exactly
    when it is up, and the other ids are as before. *)
Lemma check_agents_loop_agrees (self : Driver) (agents : list Agent)
    (w : World D) :
  reschedule_keeps_liveness ->
  NoDup (agent_id <$> agents) ->
  fst (for_each (AgentDriverBase.check_agent_state self) agents w) = Ok tt ->
  let w' := snd (for_each (AgentDriverBase.check_agent_state self) agents w) in
  (forall b, b ∈ agents ->
     (agent_id b ∈ active_agents w'
      <-> is_eligible_agent (db w) true b = true)) /\
  (forall x, x ∉ agent_id <$> agents ->
     (x ∈ active_agents w' <-> x ∈ active_agents w)).
Proof.
  intros Hframe.
  revert w. induction agents as [|a agents IH]; intros w Hnd Hok; simpl.
  - split; [|tauto]. intros b Hb. now apply elem_of_nil in Hb.
  - rewrite fmap_cons in Hnd. apply NoDup_cons in Hnd as [Hfresh Hnd].
    simpl in Hok. unfold bind in *.
    pose proof (check_agent_state_active self a w) as Hstep.
    pose proof (check_agent_state_liveness self a w Hframe) as Hlive.
    destruct (AgentDriverBase.check_agent_state self a w) as [[[]|e] w1];
      [|discriminate]. simpl in Hstep, Hlive.
    destruct (IH w1 Hnd Hok) as [Hin Hother]. split.
    + intros b [->|Hb]%elem_of_cons.
      * rewrite (Hother _ Hfresh), Hstep.
        destruct (is_eligible_agent (db w) true a); [tauto|].
        split; [tauto|discriminate].
      * rewrite <- Hlive. now apply Hin.
    + intros x Hx. simpl in Hx. rewrite not_elem_of_cons in Hx.
      destruct Hx as [Hne Hx]. rewrite (Hother _ Hx), Hstep.
      destruct (is_eligible_agent (db w) true a); tauto.
Qed.

(** A loop that returns has returned from its first iterations. *)
Lemma for_each_prefix_ok {A} (body : A -> M D unit) (pre rest : list A)
    (w : World D) :
  fst (for_each body (pre ++ rest) w) = Ok tt ->
  fst (for_each body pre w) = Ok tt.
Proof.
  revert w. induction pre as [|x pre IH]; intros w Hok; simpl in *.
  - reflexivity.
  - unfold bind in *. destruct (body x w) as [[[]|e] w1]; simpl in *.
    + now apply IH.
    + discriminate.
Qed.

(** With a scheduler that keeps liveness, a loop leaves every agent as up or
    down as it was. *)
Lemma check_agents_loop_liveness (self : Driver) (agents : list Agent)
    (w : World D) :
  reschedule_keeps_liveness ->
  forall b,
    is_eligible_agent
      (db (snd (for_each (AgentDriverBase.check_agent_state self) agents w)))
      true b
    = is_eligible_agent (db w) true b.
Proof.
  intros Hframe.
  apply (for_each_keeps _ (fun w' => forall b,
    is_eligible_agent (db w') true b = is_eligible_agent (db w) true b));
    [|reflexivity].
  intros a w1 _ Hkept b.
  rewrite (check_agent_state_liveness self a w1 Hframe). apply Hkept.
Qed.

(** X1: after a poll that returns on a roster of distinct agent ids, every
    agent of the roster is among the active agents exactly when the database
    found it up at the time the poll reached it, and ids that are not in the
    roster are in or out as before.  With a scheduler that keeps liveness,
    that is the liveness at the start of the poll. *)
Theorem poll_agrees_with_liveness (self : Driver) (w : World D) :
  NoDup (agent_id <$> get_lbaas_agents (db w)) ->
  fst (AgentDriverBase._check_agents_states self w) = Ok tt ->
  let step := AgentDriverBase.check_agent_state self in
  let w' := snd (AgentDriverBase._check_agents_states self w) in
  (forall pre b post, get_lbaas_agents (db w) = pre ++ b :: post ->
     (agent_id b ∈ active_agents w'
      <-> is_eligible_agent
            (db (snd (for_each step pre (record (EvDb GetLbaasAgents) w))))
            true b = true)) /\
  (forall x, x ∉ agent_id <$> get_lbaas_agents (db w) ->
     (x ∈ active_agents w' <-> x ∈ active_agents w)) /\
  (reschedule_keeps_liveness ->
   forall b, b ∈ get_lbaas_agents (db w) ->
     (agent_id b ∈ active_agents w'
      <-> is_eligible_agent (db w) true b = true)).
Proof.
  intros Hnd Hok step w'. subst w'. rewrite check_agents_states_unfold in *.
  fold step in Hok |- *.
  set (w0 := record (EvDb GetLbaasAgents) w) in *.
  assert (Hat : forall pre b post,
    get_lbaas_agents (db w) = pre ++ b :: post ->
    (agent_id b ∈ active_agents
       (snd (for_each step (get_lbaas_agents (db w)) w0))
     <-> is_eligible_agent (db (snd (for_each step pre w0))) true b = true)).
  { intros pre b post Hroster. rewrite Hroster in Hnd, Hok |- *.
    destruct (roster_other_ids pre post b Hnd) as [_ Hafter].
    pose proof (for_each_prefix_ok step pre (b :: post) w0 Hok) as Hpre.
    rewrite for_each_split in Hok |- * by assumption.
    pose proof (check_agent_state_active self b (snd (for_each step pre w0))
                  (agent_id b)) as Hstep.
    fold step in Hstep. unfold bind in *.
    destruct (step b (snd (for_each step pre w0))) as [[[]|e] w2];
      [|discriminate]. simpl in Hstep.
    destruct (other_agents_keep self (agent_id b) post w2 Hafter)
      as (Hkeep & _).
    fold step in Hkeep. rewrite Hkeep, Hstep.
    destruct (is_eligible_agent _ true b); [tauto|].
    split; [tauto|discriminate]. }
  split; [exact Hat|]. split.
  - intros x Hx.
    destruct (other_agents_keep self x (get_lbaas_agents (db w)) w0)
      as (Hkeep & _); [|exact Hkeep].
    intros b Hb Heq. apply Hx. rewrite <- Heq.
    apply list_elem_of_fmap. eauto.
  - intros Hframe b Hb.
    apply list_elem_of_split in Hb as (pre & post & Hroster).
    rewrite (Hat pre b post Hroster).
    now rewrite (check_agents_loop_liveness self pre w0 Hframe).
Qed.

(** X2: a poll on a world whose active agents already tell the liveness of
    every agent of the roster (an empty roster too) records its query and
    does nothing else: no agent is added or removed, nothing is rescheduled,
    logged or cast. *)
Theorem stable_poll_changes_nothing (self : Driver) (w : World D) :
  (forall b, b ∈ get_lbaas_agents (db w) ->
     (agent_id b ∈ active_agents w
      <-> is_eligible_agent (db w) true b = true)) ->
  AgentDriverBase._check_agents_states self w
  = (Ok tt, record (EvDb GetLbaasAgents) w).
Proof.
  intros Hagree. rewrite check_agents_states_unfold.
  exact (check_agents_loop_stable self _ (record (EvDb GetLbaasAgents) w)
           Hagree).
Qed.

(** X3: polling twice.  The first poll returns on a roster of distinct ids,
    with a scheduler that keeps liveness.  When the next poll starts, in a
    world [later], with the active agents the first one left, the same
    roster and every agent of it as up or down as the first poll found it,
    it only records its query.  (An agent that went down in between is not
    as the first poll found it.) *)
Theorem second_poll_changes_nothing (self : Driver) (w later : World D) :
  let w' := snd (AgentDriverBase._check_agents_states self w) in
  reschedule_keeps_liveness ->
  NoDup (agent_id <$> get_lbaas_agents (db w)) ->
  fst (AgentDriverBase._check_agents_states self w) = Ok tt ->
  active_agents later = active_agents w' ->
  get_lbaas_agents (db later) = get_lbaas_agents (db w) ->
  (forall b, b ∈ get_lbaas_agents (db w) ->
     is_eligible_agent (db later) true b = is_eligible_agent (db w) true b) ->
  AgentDriverBase._check_agents_states self later
  = (Ok tt, record (EvDb GetLbaasAgents) later).
Proof.
  intros w' Hframe Hnd Hok Hactive Hroster Hsame.
  rewrite (check_agents_states_unfold self later).
  apply (check_agents_loop_stable self _ (record (EvDb GetLbaasAgents) later)).
  rewrite Hroster. intros b Hb.
  change (active_agents (record (EvDb GetLbaasAgents) later))
    with (active_agents later).
  change (db (record (EvDb GetLbaasAgents) later)) with (db later).
  rewrite Hactive, (Hsame b Hb).
  subst w'. rewrite check_agents_states_unfold in *.
  destruct (check_agents_loop_agrees self _ _ Hframe Hnd Hok) as [Hin _].
  now apply Hin.
Qed.

(** The step of an agent that is not both down and among the active agents
    returns and leaves the database, the attributes and the record alone. *)
Lemma check_agent_state_no_failover (self : Driver) (agent : Agent)
    (w : World D) :
  (is_eligible_agent (db w) true agent = false ->
   agent_id agent ∉ active_agents w) ->
  let r := AgentDriverBase.check_agent_state self agent w in
  fst r = Ok tt /\ db (snd r) = db w /\ trace (snd r) = trace w /\
  plugin_attrs (snd r) = plugin_attrs w /\ db_attrs (snd r) = db_attrs w.
Proof.
  intros Hdown.
  unfold AgentDriverBase.check_agent_state, bind, get_active_agents, get_db.
  simpl.
  destruct (is_eligible_agent (db w) true agent); simpl.
  - destruct (bool_decide _); simpl; auto.
  - rewrite (bool_decide_eq_false_2 _ (Hdown eq_refl)). simpl. auto.
Qed.

(** A loop over agents of distinct ids none of which is both down and among
    the active agents: it returns, the database and the record are as
    before, and the active agents are joined by the agents that are up. *)
Lemma check_agents_loop_no_failover (self : Driver) (agents : list Agent)
    (w : World D) :
  NoDup (agent_id <$> agents) ->
  (forall b, b ∈ agents -> is_eligible_agent (db w) true b = false ->
             agent_id b ∉ active_agents w) ->
  let r := for_each (AgentDriverBase.check_agent_state self) agents w in
  fst r = Ok tt /\ db (snd r) = db w /\ trace (snd r) = trace w /\
  plugin_attrs (snd r) = plugin_attrs w /\ db_attrs (snd r) = db_attrs w /\
  (forall x, x ∈ active_agents w -> x ∈ active_agents (snd r)) /\
  (forall b, b ∈ agents ->
     (agent_id b ∈ active_agents (snd r)
      <-> is_eligible_agent (db w) true b = true)) /\
  (forall x, x ∉ agent_id <$> agents ->
     (x ∈ active_agents (snd r) <-> x ∈ active_agents w)).
Proof.
  revert w. induction agents as [|a agents IH]; intros w Hnd Hdown; simpl.
  - repeat split; auto.
    + intros Hin. now apply elem_of_nil in H.
    + intros _. now apply elem_of_nil in H.
  - rewrite fmap_cons in Hnd. apply NoDup_cons in Hnd as [Hfresh Hnd].
    unfold bind.
    pose proof (check_agent_state_active self a w) as Hact.
    destruct (check_agent_state_no_failover self a w)
      as (Hok & Hdb & Htr & Hpa & Hda).
    { apply Hdown. left. }
    destruct (AgentDriverBase.check_agent_state self a w) as [r1 w1].
    simpl in *. subst r1.
    destruct (IH w1 Hnd)
      as (Hok' & Hdb' & Htr' & Hpa' & Hda' & Hgrow & Hin & Hother).
    { rewrite Hdb. intros b Hb Hbdown Hin. apply Hact in Hin.
      destruct (is_eligible_agent (db w) true a).
      - destruct Hin as [Heq|Hin].
        + apply Hfresh. rewrite <- Heq. apply list_elem_of_fmap. eauto.
        + apply (Hdown b); [now right|assumption|assumption].
      - apply (Hdown b); [now right|assumption|tauto]. }
    rewrite Hdb in Hin.
    rewrite Hdb', Htr', Hpa', Hda'.
    split; [assumption|]. split; [assumption|]. split; [assumption|].
    split; [assumption|]. split; [assumption|].
    assert (Hdown_a : is_eligible_agent (db w) true a = false ->
                      agent_id a ∉ active_agents w)
      by (apply Hdown; left).
    split; [|split].
    + intros x Hx. apply Hgrow, Hact.
      destruct (is_eligible_agent (db w) true a) eqn:Hup; [tauto|].
      split; [|assumption]. intros ->. now apply Hdown_a.
    + intros b [->|Hb]%elem_of_cons; [|now apply Hin].
      rewrite (Hother _ Hfresh), Hact.
      destruct (is_eligible_agent (db w) true a); [tauto|].
      split; [tauto|discriminate].
    + intros x Hx. rewrite not_elem_of_cons in Hx.
      destruct Hx as [Hne Hx]. rewrite (Hother _ Hx), Hact.
      destruct (is_eligible_agent (db w) true a) eqn:Hup; [tauto|].
      split; [tauto|]. intros Hin'. split; [|assumption].
      intros ->. now apply Hdown_a.
Qed.

(** X4: a poll on a roster of distinct ids in which no agent is both down
    and among the active agents returns, records only its query, leaves the
    database as it is and removes no agent: without a newly down agent
    nothing is rescheduled, logged or cast. *)
Theorem poll_without_down_agent_is_silent (self : Driver) (w : World D) :
  NoDup (agent_id <$> get_lbaas_agents (db w)) ->
  (forall b, b ∈ get_lbaas_agents (db w) ->
     is_eligible_agent (db w) true b = false ->
     agent_id b ∉ active_agents w) ->
  let r := AgentDriverBase._check_agents_states self w in
  fst r = Ok tt /\
  db (snd r) = db w /\
  trace (snd r) = trace w ++ [EvDb GetLbaasAgents] /\
  (forall x, x ∈ active_agents w -> x ∈ active_agents (snd r)).
Proof.
  intros Hnd Hdown r. subst r. rewrite check_agents_states_unfold.
  destruct (check_agents_loop_no_failover self _
              (record (EvDb GetLbaasAgents) w) Hnd Hdown)
    as (Hok & Hdb & Htr & _ & _ & Hgrow & _).
  auto.
Qed.

(** X5: the first poll of a driver built on a fresh plugin, the scheduler
    class of the configuration being one that loads.  [__init__] empties the
    active agents, so the poll finds no agent to fail over: it returns,
    leaves the database alone and records only its query, and the active
    agents become the agents of the roster that are up.  The loadbalancers
    of an agent that is already down at that time are not rescheduled. *)
Theorem first_poll_after_init (conf : Conf) (name : string) (w : World D) :
  let w1 := snd (AgentDriverBase.__init__ conf (Some name) w) in
  let r := AgentDriverBase._check_agents_states (mkDriver name) w1 in
  truthy name = true ->
  import_object (loadbalancer_scheduler_driver conf) = None ->
  "agent_callbacks" ∉ plugin_attrs w ->
  "agent_monitoring" ∉ plugin_attrs w ->
  NoDup (agent_id <$> get_lbaas_agents (db w)) ->
  fst r = Ok tt /\
  db (snd r) = db w /\
  trace (snd r) = trace w1 ++ [EvDb GetLbaasAgents] /\
  (forall b, b ∈ get_lbaas_agents (db w) ->
     (agent_id b ∈ active_agents (snd r)
      <-> is_eligible_agent (db w) true b = true)) /\
  (forall x, x ∉ agent_id <$> get_lbaas_agents (db w) ->
     x ∉ active_agents (snd r)).
Proof.
  intros w1 r Hname Hload Hcb Hmon Hnd. subst r w1.
  rewrite init_on_fresh_plugin by assumption. simpl.
  set (w1 := mkWorld _ _ _ _ _).
  rewrite check_agents_states_unfold.
  change (get_lbaas_agents (db w1)) with (get_lbaas_agents (db w)).
  set (w0 := record (EvDb GetLbaasAgents) w1).
  destruct (check_agents_loop_no_failover (mkDriver name) _ w0 Hnd)
    as (Hok & Hdb & Htr & _ & _ & _ & Hin & Hother).
  { intros b _ _. apply not_elem_of_empty. }
  split; [assumption|]. split; [assumption|]. split; [assumption|].
  split; [assumption|].
  intros x Hx Hin'. apply (Hother x Hx) in Hin'.
  now apply not_elem_of_empty in Hin'.
Qed.

End Polls.

(** ** What a batch records *)

Section Batches.
Context {D : Type} {R : Registry D} {Sch : Scheduler D} {B : BaseManagers D}
  {Msg : Messaging}.

(** The events the step of one loadbalancer adds. *)
Lemma reschedule_instance_new (self : Driver) (agent : Agent)
    (lb : LoadBalancer) (w : World D) :
  let r := AgentDriverBase.reschedule_instance self agent lb w in
  let call := EvReschedule (lb_id lb) (device_driver self) in
  let removed := EvCast (mkCast (agent_host agent) "instance_removed"
                           [("loadbalancer_id", VStr (lb_id lb))]) in
  exists (host : string) (tail : list Event),
    let added := EvCast (mkCast host "instance_added"
                           [("loadbalancer_id", VStr (lb_id lb))]) in
    trace (snd r) = trace w ++ call :: tail /\
    (tail = [] /\ (exists e, fst r = Raise e) \/
     tail = [EvLogWarning AgentDriverBase.no_eligible_agent_msg [lb_id lb]]
       /\ fst r = Ok tt \/
     tail = [added] /\ (exists e, fst r = Raise e) \/
     tail = [added; removed]).
Proof.
  intros r call removed. subst r.
  destruct (reschedule_instance_spec self agent lb w) as (_ & _ & H).
  destruct (fst (reschedule _ _ _)) as [[na|]|e].
  - exists (agent_host na).
    destruct (cast_outcome _ _) as [e|]; destruct H as [Hr ->].
    + exists [EvCast (mkCast (agent_host na) "instance_added"
                        [("loadbalancer_id", VStr (lb_id lb))])].
      rewrite <- app_assoc. split; [reflexivity|]. right. right. left. eauto.
    + eexists. rewrite <- app_assoc. split; [reflexivity|].
      right. right. right. reflexivity.
  - exists "". eexists. destruct H as [Hr ->]. rewrite <- app_assoc.
    split; [reflexivity|]. right. left. auto.
  - exists "". exists []. destruct H as [Hr ->].
    split; [reflexivity|]. left. eauto.
Qed.

(** X6: [_reschedule_instances] gives the loadbalancers of the agent to the
    scheduler in the order the database lists them, each once, up to the
    first one whose step raises; all of them when it returns (none for an
    agent without loadbalancers). *)
Theorem reschedule_calls_in_order (self : Driver) (agent : Agent)
    (w : World D) :
  let lbs := list_loadbalancers_on_lbaas_agent (db w) (agent_id agent) in
  let r := AgentDriverBase._reschedule_instances self agent w in
  exists n : nat,
    (n <= length lbs)%nat /\
    List.filter is_reschedule_call (trace (snd r))
    = List.filter is_reschedule_call (trace w)
      ++ ((fun lb => EvReschedule (lb_id lb) (device_driver self))
            <$> take n lbs) /\
    (fst r = Ok tt -> n = length lbs).
Proof.
  intros lbs r. subst r. rewrite reschedule_instances_unfold. fold lbs.
  assert (Hstart : List.filter is_reschedule_call
            (trace (record (EvDb (ListLoadbalancersOnLbaasAgent
                                    (agent_id agent))) w))
          = List.filter is_reschedule_call (trace w)).
  { unfold record. simpl. rewrite List.filter_app. simpl.
    now rewrite app_nil_r. }
  rewrite <- Hstart. clear Hstart.
  generalize (record (EvDb (ListLoadbalancersOnLbaasAgent (agent_id agent))) w).
  clearbody lbs. clear w. induction lbs as [|lb lbs IH]; intros w; simpl.
  - exists 0%nat. simpl. rewrite app_nil_r. auto.
  - unfold bind.
    destruct (reschedule_instance_new self agent lb w)
      as (host & tail & Htr & Hcases).
    assert (Hcall : List.filter is_reschedule_call
              (trace (snd (AgentDriverBase.reschedule_instance self agent lb w)))
            = List.filter is_reschedule_call (trace w)
              ++ [EvReschedule (lb_id lb) (device_driver self)]).
    { rewrite Htr, List.filter_app. simpl. f_equal. f_equal.
      destruct Hcases as [[-> _]|[[-> _]|[[-> _]| ->]]]; reflexivity. }
    destruct (AgentDriverBase.reschedule_instance self agent lb w)
      as [[[]|e] w1]; simpl in *.
    + destruct (IH w1) as (n & Hn & Hfilter & Hall).
      exists (S n). split; [lia|]. split.
      * rewrite Hfilter, Hcall, <- app_assoc. reflexivity.
      * intros Hok. now rewrite Hall.
    + exists 1%nat. split; [lia|]. split.
      * rewrite Hcall. simpl. destruct lbs; reflexivity.
      * discriminate.
Qed.

(** X7: everything [_reschedule_instances] records is the listing of the
    agent's loadbalancers, a scheduler call, the warning, an
    [instance_added] cast or an [instance_removed] cast to the host of the
    agent itself.  It writes nothing to the database of its own and casts no
    create, update or delete. *)
Theorem rescheduler_records_only_its_own (self : Driver) (agent : Agent)
    (w : World D) :
  exists new : list Event,
    trace (snd (AgentDriverBase._reschedule_instances self agent w))
    = trace w ++ new /\
    forallb (rescheduler_event agent) new = true.
Proof.
  rewrite reschedule_instances_unfold.
  set (lbs := list_loadbalancers_on_lbaas_agent (db w) (agent_id agent)).
  set (w0 := record _ w).
  assert (Hloop : forall w1, exists new,
    trace (snd (for_each (AgentDriverBase.reschedule_instance self agent)
                  lbs w1)) = trace w1 ++ new /\
    forallb (rescheduler_event agent) new = true).
  { clearbody lbs. clear w0. induction lbs as [|lb lbs IH]; intros w1; simpl.
    - exists []. now rewrite app_nil_r.
    - unfold bind.
      destruct (reschedule_instance_new self agent lb w1)
        as (host & tail & Htr & Hcases).
      assert (Htail : forallb (rescheduler_event agent) tail = true).
      { destruct Hcases as [[-> _]|[[-> _]|[[-> _]| ->]]]; simpl;
          rewrite ?String.eqb_refl; reflexivity. }
      destruct (AgentDriverBase.reschedule_instance self agent lb w1)
        as [[[]|e] w2]; simpl in *.
      + destruct (IH w2) as (new & Hnew & Hall).
        eexists. rewrite Hnew, Htr, <- app_assoc. split; [reflexivity|].
        simpl. rewrite forallb_app, Htail, Hall. reflexivity.
      + eexists. split; [exact Htr|]. simpl. exact Htail. }
  destruct (Hloop w0) as (new & Hnew & Hall).
  exists (EvDb (ListLoadbalancersOnLbaasAgent (agent_id agent)) :: new).
  split.
  - rewrite Hnew. subst w0. unfold record. simpl.
    now rewrite <- app_assoc.
  - simpl. now rewrite String.eqb_refl, Hall.
Qed.

(** X8: over a batch, [instance_removed] is cast as often as
    [instance_added] when the batch returns, and at most once less often
    when it raises: no agent is told to drop a loadbalancer that no agent
    was told to take. *)
Theorem removed_never_ahead_of_added (self : Driver) (agent : Agent)
    (w : World D) :
  let r := AgentDriverBase._reschedule_instances self agent w in
  let added tr := count_events (is_cast_of "instance_added") tr in
  let removed tr := count_events (is_cast_of "instance_removed") tr in
  exists k : nat,
    (k <= 1)%nat /\
    (added (trace (snd r)) + removed (trace w)
     = removed (trace (snd r)) + added (trace w) + k)%nat /\
    (fst r = Ok tt -> k = 0%nat).
Proof.
  intros r added removed. subst r. rewrite reschedule_instances_unfold.
  assert (Hstart : forall P, (forall x, P (EvDb x) = false) ->
    count_events P (trace (record (EvDb (ListLoadbalancersOnLbaasAgent
                                           (agent_id agent))) w))
    = count_events P (trace w)).
  { intros P HP. rewrite count_events_record, HP. lia. }
  unfold added, removed.
  rewrite <- (Hstart (is_cast_of "instance_added")) by reflexivity.
  rewrite <- (Hstart (is_cast_of "instance_removed")) by reflexivity.
  clear Hstart.
  generalize (record (EvDb (ListLoadbalancersOnLbaasAgent (agent_id agent))) w).
  generalize (list_loadbalancers_on_lbaas_agent (db w) (agent_id agent)).
  clear w. intros lbs. induction lbs as [|lb lbs IH]; intros w; simpl.
  - exists 0%nat. repeat split; lia.
  - unfold bind.
    destruct (reschedule_instance_new self agent lb w)
      as (host & tail & Htr & Hcases).
    destruct (AgentDriverBase.reschedule_instance self agent lb w)
      as [[[]|e] w1]; simpl in *.
    + destruct (IH w1) as (k & Hk & Hcount & Hok).
      exists k. split; [assumption|]. split; [|assumption].
      rewrite Htr in Hcount.
      change (trace w ++ ?c :: tail) with (trace w ++ [c] ++ tail) in Hcount.
      rewrite !count_events_app in Hcount.
      destruct Hcases as [[-> [e He]]|[[-> _]|[[-> [e He]]| ->]]];
        try discriminate; unfold count_events in Hcount; simpl in Hcount;
        unfold count_events; lia.
    + rewrite Htr.
      change (trace w ++ ?c :: tail) with (trace w ++ [c] ++ tail).
      rewrite !count_events_app.
      destruct Hcases as [[-> _]|[[-> Hok]|[[-> _]| ->]]];
        try discriminate; unfold count_events; simpl.
      * exists 0%nat. repeat split; lia.
      * exists 1%nat. repeat split; try lia; discriminate.
      * exists 0%nat. repeat split; lia.
Qed.

End Batches.

(** ** What the managers do *)

Section Operations.
Context {D : Type} {R : Registry D} {Sch : Scheduler D} {B : BaseManagers D}
  {Msg : Messaging}.

Lemma with_agent {A} (k : Kind) (m : Method) (id owner : string)
    (rest : Agent -> M D A) (w : World D) (agent : Agent) :
  get_agent_hosting_loadbalancer (super_call k m id (db w)) owner
  = Some (mkHosting agent) ->
  (super k m id >>
   let* agent := AgentDriverBase.get_loadbalancer_agent owner in rest agent) w
  = rest agent
      (mkWorld (super_call k m id (db w)) (plugin_attrs w) (db_attrs w)
         (active_agents w)
         (trace w ++ [EvSuper k m id; EvDb (GetAgentHostingLoadbalancer owner)])).
Proof.
  intros Hsome. erewrite bind_ok by apply super_spec.
  erewrite bind_ok; [reflexivity|].
  rewrite get_loadbalancer_agent_spec. simpl. rewrite Hsome.
  now rewrite <- app_assoc.
Qed.

Lemma db_write_spec (c : DbCall) (f : D -> D) (w : World D) :
  db_write c f w =
  (Ok tt, mkWorld (f (db w)) (plugin_attrs w) (db_attrs w) (active_agents w)
            (trace w ++ [EvDb c])).
Proof. reflexivity. Qed.

(** Runs a manager up to the answer of the database and of the RPC client. *)
Ltac run_manager :=
  unfold run_operation, create_resource, update_change, delete_resource,
    LoadBalancerManager.update, LoadBalancerManager.delete,
    LoadBalancerManager.stats, LoadBalancerManager.refresh,
    ListenerManager.create, ListenerManager.update, ListenerManager.delete,
    PoolManager.create, PoolManager.update, PoolManager.delete,
    MemberManager.create, MemberManager.update, MemberManager.delete,
    HealthMonitorManager.create, HealthMonitorManager.update,
    HealthMonitorManager.delete;
  try (erewrite bind_ok by apply super_spec;
       unfold bind; rewrite get_loadbalancer_agent_spec;
       cbn [fst snd db plugin_attrs db_attrs active_agents trace];
       destruct (get_agent_hosting_loadbalancer _ _) as [[?agent]|];
       cbn [hosting_agent];
       [ unfold LoadBalancerAgentApi.update_loadbalancer,
           LoadBalancerAgentApi.delete_loadbalancer,
           LoadBalancerAgentApi.create_listener,
           LoadBalancerAgentApi.update_listener,
           LoadBalancerAgentApi.delete_listener,
           LoadBalancerAgentApi.create_pool,
           LoadBalancerAgentApi.update_pool,
           LoadBalancerAgentApi.delete_pool,
           LoadBalancerAgentApi.create_member,
           LoadBalancerAgentApi.update_member,
           LoadBalancerAgentApi.delete_member,
           LoadBalancerAgentApi.create_healthmonitor,
           LoadBalancerAgentApi.update_healthmonitor,
           LoadBalancerAgentApi.delete_healthmonitor,
           LoadBalancerAgentApi.cast, db_write, bind, emit, record, set_db;
         cbn [fst snd db plugin_attrs db_attrs active_agents trace truthy
              Agent_truthy];
         destruct (cast_outcome _ _);
         cbn [fst snd db plugin_attrs db_attrs active_agents trace]
       | ]).

(** The loadbalancer's [create], by the answer of the scheduler. *)
Lemma create_loadbalancer_spec (self : Driver) (lb : LoadBalancer)
    (w : World D) :
  let d1 := super_call KLoadBalancer MCreate (lb_id lb) (db w) in
  let asked := trace w ++ [EvSuper KLoadBalancer MCreate (lb_id lb);
                           EvSchedule (lb_id lb) (device_driver self)] in
  let after tr := mkWorld (snd (schedule d1 lb (device_driver self)))
                    (plugin_attrs w) (db_attrs w) (active_agents w) tr in
  LoadBalancerManager.create self lb w =
  match fst (schedule d1 lb (device_driver self)) with
  | Ok (Some agent) =>
      let c := mkCast (agent_host agent) "create_loadbalancer"
                 [("loadbalancer", VLoadBalancer lb);
                  ("driver_name", VStr (device_driver self))] in
      (match cast_outcome asked c with None => Ok tt | Some e => Raise e end,
       after (asked ++ [EvCast c]))
  | Ok None => (Raise (NoEligibleLbaasAgent (lb_id lb)), after asked)
  | Raise e => (Raise e, after asked)
  end.
Proof.
  intros d1 asked after. unfold LoadBalancerManager.create.
  erewrite bind_ok by apply super_spec.
  unfold bind, call_schedule, bind, emit, record, set_db. simpl.
  fold d1. destruct (schedule d1 lb (device_driver self)) as [[[agent|]|e] d2];
    simpl; subst asked after; simpl; rewrite <- ?app_assoc; simpl;
    try reflexivity.
  unfold LoadBalancerAgentApi.create_loadbalancer. rewrite cast_spec.
  unfold record. simpl. rewrite <- ?app_assoc. reflexivity.
Qed.

(** X9: no manager touches the active agents or the attributes of the
    plugin and of its database object, whatever the database, the scheduler
    and the RPC client answer; nor does [_reschedule_instances]. *)
Theorem managers_leave_monitoring_state (self : Driver) (op : Operation)
    (agent : Agent) (w : World D) :
  let w' := snd (run_operation self op w) in
  let w'' := snd (AgentDriverBase._reschedule_instances self agent w) in
  active_agents w' = active_agents w /\
  plugin_attrs w' = plugin_attrs w /\
  db_attrs w' = db_attrs w /\
  active_agents w'' = active_agents w.
Proof.
  intros w' w''. subst w' w''.
  split; [|split; [|split]].
  4: exact (proj1 (reschedule_instances_counts (is_reschedule_of "") self
                     agent w (is_reschedule_of_quiet ""))).
  all: destruct op as [[]|[]|[]| | | |];
    try (run_manager; reflexivity);
    unfold run_operation; rewrite create_loadbalancer_spec;
    destruct (fst (schedule _ _ _)) as [[?|]|?]; reflexivity.
Qed.

(** X10: a manager call makes at most one cast; one exactly when it
    returns, except [stats] and [refresh], which return without doing
    anything. *)
Theorem operation_casts_once (self : Driver) (op : Operation) (w : World D) :
  let r := run_operation self op w in
  (count_events is_cast (trace (snd r))
   <= count_events is_cast (trace w) + 1)%nat /\
  (fst r = Ok tt -> notifies op = true ->
   count_events is_cast (trace (snd r))
   = (count_events is_cast (trace w) + 1)%nat) /\
  (notifies op = false -> r = (Ok tt, w)).
Proof.
  intros r. subst r.
  destruct op as [[]|[]|[]| | | |];
    try (run_manager; cbn [fst snd trace];
         rewrite ?count_events_app; unfold count_events; simpl;
         repeat split; intros; try discriminate; lia).
  unfold run_operation. rewrite create_loadbalancer_spec.
  destruct (fst (schedule _ _ _)) as [[?|]|?]; simpl;
    try destruct (cast_outcome _ _); simpl;
    rewrite ?count_events_app; unfold count_events; simpl;
    repeat split; intros; try discriminate; lia.
Qed.

(** X11: a create, update or delete of a listener, pool, member or health
    monitor, and an update or delete of a loadbalancer, for a loadbalancer
    that the database gives no agent (the base managers binding none) raises
    [NoActiveLbaasAgent] for that loadbalancer; it casts nothing and makes
    no delete or status update in the database. *)
Theorem operation_without_agent (self : Driver) (op : Operation)
    (owner : string) (w : World D) :
  operation_owner op = Some owner ->
  (forall k m id d,
     get_agent_hosting_loadbalancer (super_call k m id d) owner
     = get_agent_hosting_loadbalancer d owner) ->
  get_agent_hosting_loadbalancer (db w) owner = None ->
  let r := run_operation self op w in
  fst r = Raise (NoActiveLbaasAgent owner) /\
  count_events is_cast (trace (snd r)) = count_events is_cast (trace w) /\
  count_events is_db_write (trace (snd r))
  = count_events is_db_write (trace w).
Proof.
  intros Howner Hbase Hnone r. subst r.
  destruct op as [[]|[]|[]| | | |]; simpl in Howner;
    try discriminate; injection Howner as <-;
    unfold run_operation, create_resource, update_change, delete_resource,
      LoadBalancerManager.update, LoadBalancerManager.delete,
      ListenerManager.create, ListenerManager.update, ListenerManager.delete,
      PoolManager.create, PoolManager.update, PoolManager.delete,
      MemberManager.create, MemberManager.update, MemberManager.delete,
      HealthMonitorManager.create, HealthMonitorManager.update,
      HealthMonitorManager.delete;
    (rewrite without_agent by (rewrite Hbase; exact Hnone));
    simpl; rewrite !count_events_app; unfold count_events; simpl;
    repeat split; lia.
Qed.

(** X12: deleting a listener, pool, member or health monitor whose
    loadbalancer has a hosting agent deletes it from the database and
    updates the provisioning status of the loadbalancer before the
    [delete_<kind>] cast to the agent's host is made; when the cast raises,
    the exception leaves [delete] and the deletion and the status update
    stay. *)
Theorem delete_with_agent_deletes_first (self : Driver) (r : Resource)
    (agent : Agent) (w : World D) :
  let k := resource_kind r in
  let id := resource_id r in
  let owner := resource_owner r in
  let d1 := super_call k MDelete id (db w) in
  let before := trace w ++ [EvSuper k MDelete id;
                            EvDb (GetAgentHostingLoadbalancer owner);
                            EvDb (resource_db_delete r);
                            EvDb (UpdateLoadbalancerProvisioningStatus owner)] in
  let c := delete_cast r (agent_host agent) in
  get_agent_hosting_loadbalancer d1 owner = Some (mkHosting agent) ->
  delete_resource self r w =
  (match cast_outcome before c with None => Ok tt | Some e => Raise e end,
   mkWorld
     (update_loadbalancer_provisioning_status (db_delete_resource r d1) owner)
     (plugin_attrs w) (db_attrs w) (active_agents w) (before ++ [EvCast c])).
Proof.
  intros k id owner d1 before c Hagent. subst k id owner d1 before c.
  destruct r; simpl in *;
    [unfold ListenerManager.delete | unfold PoolManager.delete
    | unfold MemberManager.delete | unfold HealthMonitorManager.delete];
    rewrite (with_agent _ _ _ _ _ _ _ Hagent);
    do 2 (erewrite bind_ok by apply db_write_spec);
    [unfold LoadBalancerAgentApi.delete_listener
    | unfold LoadBalancerAgentApi.delete_pool
    | unfold LoadBalancerAgentApi.delete_member
    | unfold LoadBalancerAgentApi.delete_healthmonitor];
    rewrite cast_spec; unfold record, delete_cast; simpl;
    rewrite <- !app_assoc; reflexivity.
Qed.

(** X13: an update of a loadbalancer, listener, pool, member or health
    monitor resolves the agent of the loadbalancer of the object as it is
    now, after the base manager's update, and makes one cast
    [update_<kind>] to that agent's host with the object as it was and as it
    is; it writes nothing to the database of its own. *)
Theorem update_with_agent_casts_both (self : Driver) (c : Change)
    (agent : Agent) (w : World D) :
  let k := change_kind c in
  let d1 := super_call k MUpdate (change_id c) (db w) in
  let before := trace w ++ [EvSuper k MUpdate (change_id c);
                            EvDb (GetAgentHostingLoadbalancer (change_owner c))] in
  get_agent_hosting_loadbalancer d1 (change_owner c) = Some (mkHosting agent) ->
  update_change self c w =
  (match cast_outcome before (update_cast c (agent_host agent)) with
   | None => Ok tt
   | Some e => Raise e
   end,
   mkWorld d1 (plugin_attrs w) (db_attrs w) (active_agents w)
     (before ++ [EvCast (update_cast c (agent_host agent))])).
Proof.
  intros k d1 before Hagent. subst k d1 before.
  destruct c; simpl in *;
    [unfold LoadBalancerManager.update | unfold ListenerManager.update
    | unfold PoolManager.update | unfold MemberManager.update
    | unfold HealthMonitorManager.update];
    rewrite (with_agent _ _ _ _ _ _ _ Hagent);
    [unfold LoadBalancerAgentApi.update_loadbalancer
    | unfold LoadBalancerAgentApi.update_listener
    | unfold LoadBalancerAgentApi.update_pool
    | unfold LoadBalancerAgentApi.update_member
    | unfold LoadBalancerAgentApi.update_healthmonitor];
    rewrite cast_spec; unfold record, update_cast; simpl; reflexivity.
Qed.

(** X14: creating a loadbalancer for which the scheduler returns an agent
    makes one cast, [create_loadbalancer] with the loadbalancer and the
    driver's [device_driver], to the host of that agent, after the base
    manager's create and the scheduler call; the database is as the
    scheduler left it.  When the scheduler raises, the exception leaves
    [create] and nothing is cast. *)
Theorem create_loadbalancer_casts_to_scheduled_agent (self : Driver)
    (lb : LoadBalancer) (w : World D) :
  let d1 := super_call KLoadBalancer MCreate (lb_id lb) (db w) in
  let out := schedule d1 lb (device_driver self) in
  let asked := trace w ++ [EvSuper KLoadBalancer MCreate (lb_id lb);
                           EvSchedule (lb_id lb) (device_driver self)] in
  let r := LoadBalancerManager.create self lb w in
  (forall agent, fst out = Ok (Some agent) ->
     let c := mkCast (agent_host agent) "create_loadbalancer"
                [("loadbalancer", VLoadBalancer lb);
                 ("driver_name", VStr (device_driver self))] in
     fst r = match cast_outcome asked c with
             | None => Ok tt
             | Some e => Raise e
             end /\
     trace (snd r) = asked ++ [EvCast c] /\
     db (snd r) = snd out) /\
  (forall e, fst out = Raise e ->
     fst r = Raise e /\ trace (snd r) = asked /\ db (snd r) = snd out).
Proof.
  intros d1 out asked r. subst r. rewrite create_loadbalancer_spec.
  fold d1. fold out. fold asked.
  split; [intros agent Hout|intros e Hout]; rewrite Hout; simpl; auto.
Qed.

End Operations.

(** ** Starting up *)

Section Startup.
Context {D : Type} {R : Registry D} {Sch : Scheduler D} {B : BaseManagers D}
  {Msg : Messaging} {Imp : Importer}.

(** X15: a driver class that leaves [device_driver] unset ([None]) or empty
    cannot be built: [__init__] raises [DriverNotSpecified] before it
    touches the plugin, so no consumer is created, no loop is started and
    the active agents are as they were. *)
Theorem init_without_device_driver (conf : Conf) (device_driver : option string)
    (w : World D) :
  truthy device_driver = false ->
  AgentDriverBase.__init__ conf device_driver w = (Raise DriverNotSpecified, w).
Proof.
  intros Hunset. unfold AgentDriverBase.__init__. now rewrite Hunset.
Qed.

(** X16: on a fresh plugin and with a scheduler class that loads:  with
    [lbaas_agent_monitoring_interval] at zero, [__init__] still creates the
    consumer and empties the active agents, but starts no loop and does not
    set [agent_monitoring]; with another interval it starts one loop, whose
    first run is delayed by the interval. *)
Theorem init_starts_loop_unless_interval_zero (conf : Conf) (name : string)
    (w : World D) :
  let interval := lbaas_agent_monitoring_interval conf in
  let w' := snd (AgentDriverBase.__init__ conf (Some name) w) in
  truthy name = true ->
  import_object (loadbalancer_scheduler_driver conf) = None ->
  "agent_callbacks" ∉ plugin_attrs w ->
  "agent_monitoring" ∉ plugin_attrs w ->
  "agent_monitoring" ∉ db_attrs w ->
  active_agents w' = ∅ /\
  count_events is_create_consumer (trace w')
  = S (count_events is_create_consumer (trace w)) /\
  if interval =? 0
  then count_events is_loop_start (trace w')
       = count_events is_loop_start (trace w)
       /\ "agent_monitoring" ∉ db_attrs w'
  else exists before,
         trace w' = before ++ [EvLoopStart interval interval] /\
         count_events is_loop_start before
         = count_events is_loop_start (trace w) /\
         "agent_monitoring" ∈ db_attrs w'.
Proof.
  intros interval w' Hname Hload Hcb Hmon Hdb. subst w'.
  rewrite init_on_fresh_plugin by assumption. simpl.
  change (truthy (lbaas_agent_monitoring_interval conf))
    with (negb (interval =? 0)).
  split; [reflexivity|]. split.
  { destruct (interval =? 0); simpl;
      rewrite !count_events_app; unfold count_events; simpl; lia. }
  destruct (interval =? 0); simpl.
  - split.
    + rewrite !count_events_app. unfold count_events. simpl. lia.
    + rewrite elem_of_union, elem_of_singleton.
      intros [H|H]; [discriminate|contradiction].
  - exists (trace w ++ [EvCreateConsumer LOADBALANCER_PLUGINV2;
                        EvConsumeInThreads; EvAgentNotifier]).
    split; [now rewrite <- app_assoc|]. split.
    + rewrite !count_events_app. unfold count_events. simpl. lia.
    + apply elem_of_union_l, elem_of_singleton. reflexivity.
Qed.

(** X17: on a plugin that already carries the attributes [agent_callbacks]
    and [agent_monitoring], and with a scheduler class that loads,
    [__init__] skips both set-ups: it only registers the agent notifier,
    creates no consumer, starts no loop and leaves the active agents as they
    are. *)
Theorem init_on_configured_plugin (conf : Conf) (name : string) (w : World D) :
  truthy name = true ->
  import_object (loadbalancer_scheduler_driver conf) = None ->
  "agent_callbacks" ∈ plugin_attrs w ->
  "agent_monitoring" ∈ plugin_attrs w ->
  AgentDriverBase.__init__ conf (Some name) w
  = (Ok (mkDriver name), record EvAgentNotifier w).
Proof.
  intros Hname Hload Hcb Hmon. unfold AgentDriverBase.__init__.
  change (truthy (Some name)) with (truthy name). rewrite Hname. simpl.
  unfold AgentDriverBase._set_callbacks_on_plugin,
    AgentDriverBase._setup_agent_monitoring_on_plugin,
    AgentDriverBase.load_scheduler, bind, hasattr_plugin, emit, ret. simpl.
  rewrite (bool_decide_eq_true_2 _ Hcb). simpl. rewrite Hload. simpl.
  rewrite (bool_decide_eq_true_2 _ Hmon). reflexivity.
Qed.

(** X18: when the scheduler class named in the configuration cannot be
    loaded, [__init__] raises what the loading raises.  By then it has set
    up the callbacks (on a plugin without [agent_callbacks], one consumer is
    created) and registered the agent notifier; it has not reached the
    monitoring: the active agents and the attributes of the database object
    are as they were and no loop is started. *)
Theorem init_with_unloadable_scheduler (conf : Conf) (name : string)
    (e : Exn) (w : World D) :
  truthy name = true ->
  import_object (loadbalancer_scheduler_driver conf) = Some e ->
  let r := AgentDriverBase.__init__ conf (Some name) w in
  fst r = Raise e /\
  active_agents (snd r) = active_agents w /\
  db_attrs (snd r) = db_attrs w /\
  db (snd r) = db w /\
  trace (snd r)
  = trace w ++ (if bool_decide ("agent_callbacks" ∈ plugin_attrs w) then []
                else [EvCreateConsumer LOADBALANCER_PLUGINV2;
                      EvConsumeInThreads]) ++ [EvAgentNotifier].
Proof.
  intros Hname Hload r. subst r. unfold AgentDriverBase.__init__.
  change (truthy (Some name)) with (truthy name). rewrite Hname. simpl.
  unfold AgentDriverBase._set_callbacks_on_plugin,
    AgentDriverBase.load_scheduler, bind, hasattr_plugin, setattr_plugin,
    emit, record, ret. simpl.
  destruct (bool_decide ("agent_callbacks" ∈ plugin_attrs w)); simpl;
    rewrite Hload; simpl; rewrite <- ?app_assoc; auto.
Qed.

End Startup.

(** ** Runs on the in-memory deployment *)

Module Runs.
Import Fake.

(** Closes a decidable goal by evaluation. *)
Ltac decided := apply (bool_decide_unpack _); vm_compute; exact I.

(** C3: two drivers built on one plugin.  The first [__init__] creates the
    consumer and starts the loop, and sets [agent_endpoints] and [conn] on
    the plugin and [active_agents] and [agent_monitoring] on its database
    object; a poll then finds both agents up; the second [__init__] returns
    too, after it has created a second consumer, started a second loop and
    emptied the active agents. *)
Theorem C3_second_init_repeats_setup :
  let w0 := world (mkStore [a1; a2] [] [] [] []) ∅ in
  let w1 := snd (init conf (Some "haproxy") w0) in
  let w2 := snd (poll self w1) in
  let w3 := snd (init conf (Some "haproxy") w2) in
  fst (init conf (Some "haproxy") w0) = Ok (mkDriver "haproxy") /\
  fst (init conf (Some "haproxy") w2) = Ok (mkDriver "haproxy") /\
  elements (plugin_attrs w1) = ["conn"; "agent_endpoints"] /\
  elements (db_attrs w1) = ["agent_monitoring"; "active_agents"] /\
  elements (active_agents w2) = ["a1"; "a2"] /\
  elements (active_agents w3) = [] /\
  count_events is_loop_start (trace w1) = 1%nat /\
  count_events is_loop_start (trace w3) = 2%nat /\
  count_events is_create_consumer (trace w1) = 1%nat /\
  count_events is_create_consumer (trace w3) = 2%nat.
Proof. vm_compute. repeat split; reflexivity. Qed.

(** C1 fails as stated: the loadbalancer of the listener has no hosting
    agent, and [delete] raises [NoActiveLbaasAgent] with the listener still
    in the database, no provisioning status updated and no database delete
    recorded. *)
Lemma C1_delete_without_agent_counterexample :
  let w := world orphan_store ∅ in
  let r := delete self (RListener orphan) w in
  get_agent_hosting_loadbalancer (Registry:=registry) (db w) "w9" = None /\
  fst r = Raise (NoActiveLbaasAgent "w9") /\
  rows (db (snd r)) = [(KLoadBalancer, "w9"); (KListener, "l9")] /\
  status_updates (db (snd r)) = [] /\
  trace (snd r)
  = [EvSuper KListener MDelete "l9"; EvDb (GetAgentHostingLoadbalancer "w9")].
Proof. vm_compute. repeat split; reflexivity. Qed.

Lemma C1_delete_without_agent_stops_witness :
  delete self (RListener orphan) (world orphan_store ∅) =
  (Raise (NoActiveLbaasAgent "w9"),
   mkWorld orphan_store ∅ ∅ ∅
     [EvSuper KListener MDelete "l9"; EvDb (GetAgentHostingLoadbalancer "w9")]).
Proof.
  apply (C1_delete_without_agent_stops (R:=registry) (B:=base)
           (Msg:=messaging []) self (RListener orphan) (world orphan_store ∅)).
  reflexivity.
Defined.

(** C4 fails as stated.  With the scheduler raising for w2, the batch of
    agent a1 raises after w1 has been moved: w3 is never given to the
    scheduler and stays with a1.  With the host of a2 unreachable, the
    batch raises at the first cast: w2 and w3 are never given to the
    scheduler. *)
Lemma C4_failure_ends_batch_counterexample :
  let by_scheduler :=
    reschedule_all [] self a1_down (world (failover_store ["w2"]) ∅) in
  let by_cast :=
    reschedule_all ["host2"] self a1_down (world (failover_store []) ∅) in
  fst by_scheduler = Raise (OtherError "DBError") /\
  trace (snd by_scheduler)
  = [EvDb (ListLoadbalancersOnLbaasAgent "a1");
     EvReschedule "w1" "haproxy";
     EvCast (mkCast "host2" "instance_added" [("loadbalancer_id", VStr "w1")]);
     EvCast (mkCast "host1" "instance_removed" [("loadbalancer_id", VStr "w1")]);
     EvReschedule "w2" "haproxy"] /\
  lookup_binding (db (snd by_scheduler)) "w3" = Some a1 /\
  fst by_cast = Raise (OtherError "MessagingException") /\
  trace (snd by_cast)
  = [EvDb (ListLoadbalancersOnLbaasAgent "a1");
     EvReschedule "w1" "haproxy";
     EvCast (mkCast "host2" "instance_added" [("loadbalancer_id", VStr "w1")])].
Proof. vm_compute. repeat split; reflexivity. Qed.

Lemma C4_failure_ends_batch_witness :
  reschedule_all [] self a1_down (world (failover_store ["w2"]) ∅) =
  (Raise (OtherError "DBError"),
   mkWorld
     (mkStore [a2; a1_down] [("w1", a2); ("w2", a1); ("w3", a1)]
        [(KLoadBalancer, "w1"); (KLoadBalancer, "w2"); (KLoadBalancer, "w3")]
        [] ["w2"])
     ∅ ∅ ∅
     [EvDb (ListLoadbalancersOnLbaasAgent "a1");
      EvReschedule "w1" "haproxy";
      EvCast (mkCast "host2" "instance_added" [("loadbalancer_id", VStr "w1")]);
      EvCast (mkCast "host1" "instance_removed" [("loadbalancer_id", VStr "w1")]);
      EvReschedule "w2" "haproxy"]).
Proof.
  apply (C4_failure_ends_batch (R:=registry) (Sch:=scheduler)
           (Msg:=messaging []) self a1_down
           (world (failover_store ["w2"]) ∅) [lb1] [lb3] lb2
           (OtherError "DBError")); reflexivity.
Defined.

Lemma C5_added_before_removed_witness :
  exists rest : list Event,
    trace (snd (reschedule_all [] self a1_down (world (failover_store []) ∅)))
    = [EvDb (ListLoadbalancersOnLbaasAgent "a1");
       EvReschedule "w1" "haproxy";
       EvCast (mkCast "host2" "instance_added" [("loadbalancer_id", VStr "w1")]);
       EvCast (mkCast "host1" "instance_removed" [("loadbalancer_id", VStr "w1")]);
       EvReschedule "w2" "haproxy"]
      ++ EvCast (mkCast "host2" "instance_added"
                   [("loadbalancer_id", VStr "w2")]) :: rest /\
    exists rest',
      rest = EvCast (mkCast "host1" "instance_removed"
                       [("loadbalancer_id", VStr "w2")]) :: rest'.
Proof.
  apply (C5_added_before_removed (R:=registry) (Sch:=scheduler)
           (Msg:=messaging []) self a1_down a2
           (world (failover_store []) ∅) [lb1] [lb3] lb2); reflexivity.
Defined.


Lemma C7_create_without_eligible_agent_witness :
  let r := create_loadbalancer self lb1 (world (mkStore [a1_down] [] [] [] []) ∅) in
  fst r = Raise (NoEligibleLbaasAgent "w1") /\
  get_agent_hosting_loadbalancer (Registry:=registry) (db (snd r)) "w1" = None /\
  db (snd r) = mkStore [a1_down] [] [(KLoadBalancer, "w1")] [] [] /\
  trace (snd r)
  = [EvSuper KLoadBalancer MCreate "w1"; EvSchedule "w1" "haproxy"] /\
  count_events is_cast (trace (snd r)) = 0%nat.
Proof.
  apply (C7_create_without_eligible_agent (R:=registry) (Sch:=scheduler)
           (B:=base) (Msg:=messaging []) self lb1
           (world (mkStore [a1_down] [] [] [] []) ∅)); reflexivity.
Defined.

Lemma C8_no_eligible_agent_keeps_assignment_witness :
  let w := world outage_store ∅ in
  let w1 := record (EvDb (ListLoadbalancersOnLbaasAgent "a1")) w in
  let step := AgentDriverBase.reschedule_instance
                (Sch:=scheduler) (Msg:=messaging []) self a1_down in
  let w2 := snd (step lb1 w1) in
  fst (step lb1 w1) = Ok tt /\
  lookup_binding (db w2) "w1" = Some a1 /\
  db w2 = outage_store /\
  active_agents w2 = ∅ /\
  trace w2
  = [EvDb (ListLoadbalancersOnLbaasAgent "a1");
     EvReschedule "w1" "haproxy";
     EvLogWarning AgentDriverBase.no_eligible_agent_msg ["w1"]] /\
  reschedule_all [] self a1_down w = for_each step [] w2.
Proof.
  intros w w1 step w2.
  destruct (C8_no_eligible_agent_keeps_assignment (R:=registry)
              (Sch:=scheduler) (Msg:=messaging []) self a1_down w [] [] lb1)
    as (Hok & Hhost & Hdb & Hact & Htr & Hrest); try reflexivity.
  repeat split; assumption || reflexivity.
Defined.

Lemma C9_up_agent_only_added_witness :
  let w := world (mkStore [a1; a2] [("w1", a1)] [] [] []) {["a1"]} in
  let w1 := record (EvDb GetLbaasAgents) w in
  let step := AgentDriverBase.check_agent_state
                (R:=registry) (Sch:=scheduler) (Msg:=messaging []) self in
  let w2 := snd (step a2 w1) in
  step a2 w1 =
  (Ok tt, mkWorld (db w) ∅ ∅ ({["a2"]} ∪ {["a1"]}) [EvDb GetLbaasAgents]) /\
  "a2" ∈ active_agents w2 /\
  trace w2 = trace w1 /\
  db w2 = db w1 /\
  list_loadbalancers_on_lbaas_agent (Registry:=registry) (db w2) "a2" = [] /\
  poll self w = for_each step [] w2.
Proof.
  intros w w1 step w2.
  apply (C9_up_agent_only_added (R:=registry) (Sch:=scheduler)
           (Msg:=messaging []) self a2 w [a1] []).
  - reflexivity.
  - decided.
  - decided.
  - reflexivity.
  - reflexivity.
Defined.

(** Closes [x ∈ s -> False] by evaluation. *)
Ltac not_in :=
  let H := fresh in
  intros H; exfalso; revert H;
  match goal with |- ?x ∈ ?s -> False => change (x ∉ s) end; decided.

Lemma poll_agrees_with_liveness_witness :
  let w := world (failover_store []) {["a1"; "a2"]} in
  let w' := snd (poll self w) in
  ("a1" ∈ active_agents w' <-> up a1_down = true) /\
  ("a2" ∈ active_agents w' <-> up a2 = true) /\
  ("a3" ∈ active_agents w' <-> "a3" ∈ active_agents w).
Proof.
  intros w w'.
  destruct (poll_agrees_with_liveness (R:=registry) (Sch:=scheduler)
              (Msg:=messaging []) self w) as (Hat & Hother & _).
  - decided.
  - reflexivity.
  - split; [|split].
    + exact (Hat [a2] a1_down [] eq_refl).
    + exact (Hat [] a2 [a1_down] eq_refl).
    + apply (Hother "a3"). decided.
Defined.

Lemma stable_poll_changes_nothing_witness :
  let w := world (mkStore [a1; a2_down] [("w1", a2)] [] [] []) {["a1"]} in
  poll self w = (Ok tt, record (EvDb GetLbaasAgents) w).
Proof.
  intros w.
  apply (stable_poll_changes_nothing (R:=registry) (Sch:=scheduler)
           (Msg:=messaging []) self w).
  intros b Hb. change (get_lbaas_agents (db w)) with [a1; a2_down] in Hb.
  apply elem_of_cons in Hb as [->|Hb].
  - split; [reflexivity|]. intros _. decided.
  - apply elem_of_cons in Hb as [->|Hb].
    + split; [not_in|discriminate].
    + now apply elem_of_nil in Hb.
Defined.

Lemma second_poll_changes_nothing_witness :
  let w := world (failover_store []) {["a1"; "a2"]} in
  let w' := snd (poll self w) in
  let later := mkWorld (db w') (plugin_attrs w') (db_attrs w')
                 (active_agents w')
                 (trace w' ++ [EvSuper KListener MCreate "l7"]) in
  poll self later = (Ok tt, record (EvDb GetLbaasAgents) later).
Proof.
  intros w w' later.
  apply (second_poll_changes_nothing (R:=registry) (Sch:=scheduler)
           (Msg:=messaging []) self w later).
  - intros d id dd b. reflexivity.
  - decided.
  - reflexivity.
  - vm_compute. reflexivity.
  - vm_compute. reflexivity.
  - intros b _. reflexivity.
Defined.

Lemma poll_without_down_agent_is_silent_witness :
  let w := world (mkStore [a1; a2_down] [("w1", a2)] [] [] []) ∅ in
  let r := poll self w in
  fst r = Ok tt /\ db (snd r) = db w /\ trace (snd r) = [EvDb GetLbaasAgents].
Proof.
  intros w r.
  destruct (poll_without_down_agent_is_silent (R:=registry) (Sch:=scheduler)
              (Msg:=messaging []) self w) as (Hok & Hdb & Htr & _).
  - decided.
  - intros b _ _. apply not_elem_of_empty.
  - auto.
Defined.

Lemma first_poll_after_init_witness :
  let w := world (failover_store []) {["a1"; "a2"]} in
  let w1 := snd (init conf (Some "haproxy") w) in
  let r := poll (mkDriver "haproxy") w1 in
  fst r = Ok tt /\
  db (snd r) = failover_store [] /\
  trace (snd r) = trace w1 ++ [EvDb GetLbaasAgents] /\
  ("a1" ∈ active_agents (snd r) <-> up a1_down = true) /\
  ("a3" ∉ active_agents (snd r)).
Proof.
  intros w w1 r.
  destruct (first_poll_after_init (R:=registry) (Sch:=scheduler)
              (Msg:=messaging []) (Imp:=importer) conf "haproxy" w)
    as (Hok & Hdb & Htr & Hin & Hother).
  - reflexivity.
  - reflexivity.
  - apply not_elem_of_empty.
  - apply not_elem_of_empty.
  - decided.
  - split; [exact Hok|]. split; [exact Hdb|]. split; [exact Htr|]. split.
    + apply (Hin a1_down). right. left.
    + apply (Hother "a3"). decided.
Defined.

Lemma operation_without_agent_witness :
  let w := world orphan_store ∅ in
  let r := run self (OpUpdate (ChListener orphan orphan)) w in
  fst r = Raise (NoActiveLbaasAgent "w9") /\
  count_events is_cast (trace (snd r)) = 0%nat /\
  count_events is_db_write (trace (snd r)) = 0%nat.
Proof.
  intros w r.
  apply (operation_without_agent (R:=registry) (Sch:=scheduler) (B:=base)
           (Msg:=messaging []) self (OpUpdate (ChListener orphan orphan))
           "w9" w).
  - reflexivity.
  - intros k m id d. destruct m; reflexivity.
  - reflexivity.
Defined.

Lemma delete_with_agent_deletes_first_witness :
  delete self (RListener l1) (world hosted_store ∅) =
  (Ok tt,
   mkWorld
     (mkStore [a1; a2] [("w1", a1)] [(KLoadBalancer, "w1"); (KPool, "p1")]
        ["w1"] [])
     ∅ ∅ ∅
     [EvSuper KListener MDelete "l1";
      EvDb (GetAgentHostingLoadbalancer "w1");
      EvDb (DeleteListener "l1");
      EvDb (UpdateLoadbalancerProvisioningStatus "w1");
      EvCast (mkCast "host1" "delete_listener" [("listener", VListener l1)])]).
Proof.
  apply (delete_with_agent_deletes_first (R:=registry) (B:=base)
           (Msg:=messaging []) self (RListener l1) a1 (world hosted_store ∅)).
  reflexivity.
Defined.

Lemma update_with_agent_casts_both_witness :
  let old := mkPool "p1" (mkListener "l0" lb2) in
  update self (ChPool old p1) (world hosted_store ∅) =
  (Ok tt,
   mkWorld hosted_store ∅ ∅ ∅
     [EvSuper KPool MUpdate "p1";
      EvDb (GetAgentHostingLoadbalancer "w1");
      EvCast (mkCast "host1" "update_pool"
                [("old_pool", VPool old); ("pool", VPool p1)])]).
Proof.
  intros old.
  apply (update_with_agent_casts_both (R:=registry) (B:=base)
           (Msg:=messaging []) self (ChPool old p1) a1 (world hosted_store ∅)).
  reflexivity.
Defined.

Lemma create_loadbalancer_casts_to_scheduled_agent_witness :
  let r := create_loadbalancer self lb2 (world hosted_store ∅) in
  fst r = Ok tt /\
  trace (snd r)
  = [EvSuper KLoadBalancer MCreate "w2"; EvSchedule "w2" "haproxy";
     EvCast (mkCast "host1" "create_loadbalancer"
               [("loadbalancer", VLoadBalancer lb2);
                ("driver_name", VStr "haproxy")])] /\
  lookup_binding (db (snd r)) "w2" = Some a1.
Proof.
  intros r.
  destruct (create_loadbalancer_casts_to_scheduled_agent (Sch:=scheduler)
              (B:=base) (Msg:=messaging []) self lb2 (world hosted_store ∅))
    as [Hsome _].
  destruct (Hsome a1 eq_refl) as (Hok & Htr & Hdb).
  split; [exact Hok|]. split; [exact Htr|].
  exact (f_equal (fun d => lookup_binding d "w2") Hdb).
Defined.

Lemma init_without_device_driver_witness :
  init conf (Some "") (world hosted_store {["a1"]})
  = (Raise DriverNotSpecified, world hosted_store {["a1"]}).
Proof.
  apply (init_without_device_driver (D:=Store) (Imp:=importer) conf (Some "")).
  reflexivity.
Defined.

Lemma init_starts_loop_unless_interval_zero_witness :
  let w' := snd (init conf_off (Some "haproxy") (world hosted_store {["a1"]})) in
  active_agents w' = ∅ /\
  count_events is_create_consumer (trace w') = 1%nat /\
  count_events is_loop_start (trace w') = 0%nat /\
  "agent_monitoring" ∉ db_attrs w'.
Proof.
  intros w'.
  apply (init_starts_loop_unless_interval_zero (D:=Store) (Imp:=importer)
           conf_off "haproxy" (world hosted_store {["a1"]})).
  - reflexivity.
  - reflexivity.
  - apply not_elem_of_empty.
  - apply not_elem_of_empty.
  - apply not_elem_of_empty.
Defined.

Lemma init_on_configured_plugin_witness :
  let w := mkWorld hosted_store {["agent_callbacks"; "agent_monitoring"]} ∅
             {["a1"]} [] in
  init conf (Some "haproxy") w = (Ok (mkDriver "haproxy"), record EvAgentNotifier w).
Proof.
  intros w.
  apply (init_on_configured_plugin (D:=Store) (Imp:=importer) conf "haproxy" w).
  - reflexivity.
  - reflexivity.
  - decided.
  - decided.
Defined.

Lemma init_with_unloadable_scheduler_witness :
  let w := world hosted_store {["a1"]} in
  let r := init conf_unloadable (Some "haproxy") w in
  fst r = Raise (OtherError "ImportError") /\
  active_agents (snd r) = {["a1"]} /\
  db_attrs (snd r) = ∅ /\
  db (snd r) = hosted_store /\
  trace (snd r)
  = [EvCreateConsumer LOADBALANCER_PLUGINV2; EvConsumeInThreads;
     EvAgentNotifier].
Proof.
  intros w r.
  apply (init_with_unloadable_scheduler (D:=Store) (Imp:=importer)
           conf_unloadable "haproxy" (OtherError "ImportError") w);
    reflexivity.
Defined.


(** C9 fails as stated.  Agent a2 is up and not among the active agents.
    Rescheduling the loadbalancer of a1, listed before it, raises, which
    ends the poll: a2 is not added. *)
Lemma C9_up_agent_not_reached_counterexample :
  let w := world (stuck_store a2) {["a1"]} in
  let r := poll self w in
  up a2 = true /\
  elements (active_agents w) = ["a1"] /\
  fst r = Raise (OtherError "DBError") /\
  elements (active_agents (snd r)) = [] /\
  trace (snd r)
  = [EvDb GetLbaasAgents;
     EvLogWarning AgentDriverBase.became_inactive_msg ["a1"; "host1"];
     EvDb (ListLoadbalancersOnLbaasAgent "a1");
     EvReschedule "w1" "haproxy"].
Proof. vm_compute. repeat split; reflexivity. Qed.

End Runs.
